(** * CV Analyzer: the page script [static/js/app.js]

    A shallow embedding of the script's listeners over an explicit page
    state, and the properties of its upload zone, theme toggle, sidebar
    and alerts. *)

From Stdlib Require Import NArith ZArith Lia String Ascii.
From stdpp Require Import base option list gmap.

Local Open Scope Z_scope.

(** ** JavaScript strings

    A JavaScript string is a sequence of UTF-16 code units; the script
    uses [toLowerCase], [lastIndexOf], [substring], [+] and the array
    method [indexOf]. *)

Module Js.

(** A string literal of the source, as code units. *)
Definition lit (s : string) : list N :=
  List.map N_of_ascii (list_ascii_of_string s).

#[global] Arguments lit : simpl never.

(** The lower-case form of one code unit.  Basic Latin, the Latin-1
    Supplement, the Kelvin and Angstrom signs and U+0130 are covered;
    U+0130 (capital I with dot above) is the one code point whose
    lower-case form, [i] followed by U+0307, is longer than the code point
    itself.  Units of other scripts are left as they are: their lower-case
    forms have the length of the original and are no Basic Latin unit. *)
Definition toLowerCaseUnit (u : N) : list N :=
  if ((65 <=? u) && (u <=? 90))%N then [(u + 32)%N]
  else if ((192 <=? u) && (u <=? 222) && negb (u =? 215))%N then [(u + 32)%N]
  else if (u =? 304)%N then [105%N; 775%N]
  else if (u =? 8490)%N then [107%N]
  else if (u =? 8491)%N then [229%N]
  else [u].

(** [s.toLowerCase()] *)
Definition toLowerCase (s : list N) : list N :=
  flat_map toLowerCaseUnit s.

Fixpoint lastIndexFrom (s : list N) (u : N) (i found : Z) : Z :=
  match s with
  | [] => found
  | c :: r => lastIndexFrom r u (i + 1) (if (c =? u)%N then i else found)
  end.

(** [s.lastIndexOf(u)] for a search string of one code unit: the index of
    its last occurrence, [-1] when there is none. *)
Definition lastIndexOf (s : list N) (u : N) : Z :=
  lastIndexFrom s u 0 (-1).

(** [s.substring(start)]: [start] is clamped to [0 .. s.length]. *)
Definition substring (s : list N) (start : Z) : list N :=
  let len := Z.of_nat (length s) in
  drop (Z.to_nat (Z.min (Z.max start 0) len)) s.

Fixpoint indexFrom (l : list (list N)) (x : list N) (i : Z) : Z :=
  match l with
  | [] => -1
  | y :: r => if decide (y = x) then i else indexFrom r x (i + 1)
  end.

(** [l.indexOf(x)] on an array of strings, with strict equality. *)
Definition indexOf (l : list (list N)) (x : list N) : Z :=
  indexFrom l x 0.

End Js.

(** The code unit of the full stop. *)
Definition dot : N := 46%N.

(** ** The allow-list and the extension of a file name *)

(** [var allowedExtensions = ['.pdf', '.docx', '.txt'];] *)
Definition allowedExtensions : list (list N) :=
  [Js.lit ".pdf"; Js.lit ".docx"; Js.lit ".txt"].

(** [file.name.toLowerCase().substring(file.name.lastIndexOf('.'))]: the
    index is taken in the name as it is, the slice in its lower-case
    form. *)
Definition ext (name : list N) : list N :=
  Js.substring (Js.toLowerCase name) (Js.lastIndexOf name dot).

(** [allowedExtensions.indexOf(ext) === -1] *)
Definition notAllowed (name : list N) : bool :=
  Js.indexOf allowedExtensions (ext name) =? -1.

(** ** The page

    Elements are looked up by id; an absent element is [None] (or [false]
    where the script only calls a method of it).  The script never creates
    or removes the elements it looks up by id, so which of them exist is
    fixed for the life of the page. *)

(** An element of the document with its descendants, for [contains]. *)
#[local] Set Warnings "-register-all".
Inductive Element : Type :=
  Elem (id : nat) (children : list Element).

(** [e.contains(t)]: [t] is [e] or a descendant of it. *)
Fixpoint contains (e : Element) (t : nat) : bool :=
  match e with
  | Elem i kids => Nat.eqb i t || existsb (fun k => contains k t) kids
  end.

(** A file handle; the script reads its name only. *)
Record File : Type := mkFile { name : list N }.

(** [#uploadZone]: its class list and the text of its first descendant of
    class [upload-text], [None] when [querySelector] finds none. *)
Record Zone : Type := mkZone {
  zoneClasses : list (list N);
  uploadText : option (list N)
}.

(** [#sidebar]: its class list and its subtree. *)
Record Sidebar : Type := mkSidebar {
  sidebarClasses : list (list N);
  sidebarTree : Element
}.

(** An alert element. *)
Record AlertEl : Type := mkAlert {
  alertId : nat;
  className : list N;
  innerHTML : list N
}.

(** The timer callbacks of the page.  Two are the script's: the one of
    [initAutoCloseAlerts], which closes the alert, and the one of
    [showAlert], which closes it when it still has a parent.  The third is
    the alert widget's own: the end of the fade a [close()] has started. *)
Inductive Callback : Type :=
  | closeAlert (id : nat)
  | closeAlertIfAttached (id : nat)
  | transitionEnd (id : nat).

Record Timer : Type := mkTimer { due : N; callback : Callback }.

Record Page : Type := mkPage {
  themeToggle : option (list N);        (* #themeToggle, its innerHTML *)
  dataTheme : option (list N);          (* data-theme of the root, None = null *)
  localStorage : gmap (list N) (list N);
  sidebarToggle : option Element;       (* #sidebarToggle *)
  sidebar : option Sidebar;             (* #sidebar *)
  innerWidth : Z;                       (* window.innerWidth *)
  uploadZone : option Zone;             (* #uploadZone *)
  cvFileInput : option (list File);     (* #cvFileInput, its files *)
  pickerOpened : nat;                   (* calls of input.click() *)
  uploadForm : bool;                    (* #uploadForm exists *)
  submitted : list (list File);         (* one entry per submit(), latest first *)
  alertContainer : option (list AlertEl); (* #alertContainer, its children *)
  timers : list Timer;                  (* pending setTimeout callbacks *)
  now : N;                              (* clock, in ms *)
  nextId : nat                          (* identity of the next created node *)
}.

Definition set_themeToggle (v : option (list N)) (p : Page) : Page :=
  mkPage v (dataTheme p) (localStorage p) (sidebarToggle p) (sidebar p)
    (innerWidth p) (uploadZone p) (cvFileInput p) (pickerOpened p)
    (uploadForm p) (submitted p) (alertContainer p) (timers p) (now p)
    (nextId p).

Definition set_dataTheme (v : option (list N)) (p : Page) : Page :=
  mkPage (themeToggle p) v (localStorage p) (sidebarToggle p) (sidebar p)
    (innerWidth p) (uploadZone p) (cvFileInput p) (pickerOpened p)
    (uploadForm p) (submitted p) (alertContainer p) (timers p) (now p)
    (nextId p).

Definition set_localStorage (v : gmap (list N) (list N)) (p : Page) : Page :=
  mkPage (themeToggle p) (dataTheme p) v (sidebarToggle p) (sidebar p)
    (innerWidth p) (uploadZone p) (cvFileInput p) (pickerOpened p)
    (uploadForm p) (submitted p) (alertContainer p) (timers p) (now p)
    (nextId p).

Definition set_sidebar (v : option Sidebar) (p : Page) : Page :=
  mkPage (themeToggle p) (dataTheme p) (localStorage p) (sidebarToggle p) v
    (innerWidth p) (uploadZone p) (cvFileInput p) (pickerOpened p)
    (uploadForm p) (submitted p) (alertContainer p) (timers p) (now p)
    (nextId p).

Definition set_uploadZone (v : option Zone) (p : Page) : Page :=
  mkPage (themeToggle p) (dataTheme p) (localStorage p) (sidebarToggle p)
    (sidebar p) (innerWidth p) v (cvFileInput p) (pickerOpened p)
    (uploadForm p) (submitted p) (alertContainer p) (timers p) (now p)
    (nextId p).

Definition set_cvFileInput (v : option (list File)) (p : Page) : Page :=
  mkPage (themeToggle p) (dataTheme p) (localStorage p) (sidebarToggle p)
    (sidebar p) (innerWidth p) (uploadZone p) v (pickerOpened p)
    (uploadForm p) (submitted p) (alertContainer p) (timers p) (now p)
    (nextId p).

Definition set_pickerOpened (v : nat) (p : Page) : Page :=
  mkPage (themeToggle p) (dataTheme p) (localStorage p) (sidebarToggle p)
    (sidebar p) (innerWidth p) (uploadZone p) (cvFileInput p) v
    (uploadForm p) (submitted p) (alertContainer p) (timers p) (now p)
    (nextId p).

Definition set_submitted (v : list (list File)) (p : Page) : Page :=
  mkPage (themeToggle p) (dataTheme p) (localStorage p) (sidebarToggle p)
    (sidebar p) (innerWidth p) (uploadZone p) (cvFileInput p)
    (pickerOpened p) (uploadForm p) v (alertContainer p) (timers p) (now p)
    (nextId p).

Definition set_alertContainer (v : option (list AlertEl)) (p : Page) : Page :=
  mkPage (themeToggle p) (dataTheme p) (localStorage p) (sidebarToggle p)
    (sidebar p) (innerWidth p) (uploadZone p) (cvFileInput p)
    (pickerOpened p) (uploadForm p) (submitted p) v (timers p) (now p)
    (nextId p).

Definition set_timers (v : list Timer) (p : Page) : Page :=
  mkPage (themeToggle p) (dataTheme p) (localStorage p) (sidebarToggle p)
    (sidebar p) (innerWidth p) (uploadZone p) (cvFileInput p)
    (pickerOpened p) (uploadForm p) (submitted p) (alertContainer p) v
    (now p) (nextId p).

Definition set_now (v : N) (p : Page) : Page :=
  mkPage (themeToggle p) (dataTheme p) (localStorage p) (sidebarToggle p)
    (sidebar p) (innerWidth p) (uploadZone p) (cvFileInput p)
    (pickerOpened p) (uploadForm p) (submitted p) (alertContainer p)
    (timers p) v (nextId p).

Definition set_nextId (v : nat) (p : Page) : Page :=
  mkPage (themeToggle p) (dataTheme p) (localStorage p) (sidebarToggle p)
    (sidebar p) (innerWidth p) (uploadZone p) (cvFileInput p)
    (pickerOpened p) (uploadForm p) (submitted p) (alertContainer p)
    (timers p) (now p) v.

(** A listener either returns or throws; a throw keeps the page as it was
    when the fault was raised. *)
Inductive Error : Type := TypeError.

Inductive Result : Type :=
  | Ok (p : Page)
  | Throw (e : Error) (p : Page).

Definition pageOf (r : Result) : Page :=
  match r with Ok p | Throw _ p => p end.

Definition thrown (r : Result) : bool :=
  match r with Ok _ => false | Throw _ _ => true end.

(** [DOMTokenList]: an ordered set of class names. *)
Module ClassList.

Definition has (c : list N) (l : list (list N)) : bool :=
  bool_decide (c ∈ l).

Definition add (c : list N) (l : list (list N)) : list (list N) :=
  if has c l then l else l ++ [c].

Definition remove (c : list N) (l : list (list N)) : list (list N) :=
  filter (λ x, x ≠ c) l.

Definition toggle (c : list N) (l : list (list N)) : list (list N) :=
  if has c l then remove c l else l ++ [c].

End ClassList.

(** The double quote, for the literals that hold markup. *)
Definition dq : list N := [34%N].

Definition theme_key : list N := Js.lit "theme".
Definition light : list N := Js.lit "light".
Definition dark : list N := Js.lit "dark".
Definition show : list N := Js.lit "show".
Definition dragover : list N := Js.lit "dragover".
Definition danger : list N := Js.lit "danger".

(** ** Theme toggle *)

Definition sun_icon : list N :=
  Js.lit "<i class=" ++ dq ++ Js.lit "bi bi-sun" ++ dq ++ Js.lit "></i>".

Definition moon_icon : list N :=
  Js.lit "<i class=" ++ dq ++ Js.lit "bi bi-moon" ++ dq ++ Js.lit "></i>".

Definition updateThemeIcon (theme : list N) (p : Page) : Page :=
  match themeToggle p with
  | None => p
  | Some _ =>
      set_themeToggle
        (Some (if decide (theme = dark) then sun_icon else moon_icon)) p
  end.

(** [localStorage.getItem('theme') || 'light']: the empty string is falsy. *)
Definition savedTheme (p : Page) : list N :=
  match localStorage p !! theme_key with
  | Some (c :: r) => c :: r
  | _ => light
  end.

Definition initThemeToggle (p : Page) : Page :=
  match themeToggle p with
  | None => p
  | Some _ =>
      let saved := savedTheme p in
      updateThemeIcon saved (set_dataTheme (Some saved) p)
  end.

(** [current === 'dark' ? 'light' : 'dark'] *)
Definition nextTheme (current : option (list N)) : list N :=
  if decide (current = Some dark) then light else dark.

(** The click listener of the toggle. *)
Definition themeClickListener (p : Page) : Page :=
  let next := nextTheme (dataTheme p) in
  let p := set_dataTheme (Some next) p in
  let p := set_localStorage (<[theme_key := next]> (localStorage p)) p in
  updateThemeIcon next p.

(** A click on the toggle: the listener is there when the toggle is. *)
Definition themeClick (p : Page) : Page :=
  match themeToggle p with
  | None => p
  | Some _ => themeClickListener p
  end.

(** ** Sidebar toggle *)

Definition withSidebarClasses
    (f : list (list N) -> list (list N)) (p : Page) : Page :=
  match sidebar p with
  | None => p
  | Some sb =>
      set_sidebar (Some (mkSidebar (f (sidebarClasses sb)) (sidebarTree sb))) p
  end.

(** The click listener of the toggle button. *)
Definition sidebarButtonListener (p : Page) : Page :=
  withSidebarClasses (ClassList.toggle show) p.

(** The click listener of the document, lines 46 to 52, for a click whose
    target is the node [target]; both listeners are registered only when
    the button and the sidebar exist. *)
Definition documentClick (target : nat) (p : Page) : Page :=
  match sidebarToggle p, sidebar p with
  | Some btn, Some sb =>
      if (innerWidth p <=? 992)
         && negb (contains (sidebarTree sb) target)
         && negb (contains btn target)
      then withSidebarClasses (ClassList.remove show) p
      else p
  | _, _ => p
  end.

(** A click at [target] as the two sidebar listeners see it: the event
    reaches the button's listener when the target is inside the button,
    then bubbles to the document. *)
Definition sidebarClickEvent (target : nat) (p : Page) : Page :=
  match sidebarToggle p, sidebar p with
  | Some btn, Some _ =>
      documentClick target
        (if contains btn target then sidebarButtonListener p else p)
  | _, _ => p
  end.

Definition sidebarShown (p : Page) : bool :=
  match sidebar p with
  | Some sb => ClassList.has show (sidebarClasses sb)
  | None => false
  end.

(** ** Alerts *)

Definition setTimeout (cb : Callback) (delay : N) (p : Page) : Page :=
  set_timers (timers p ++ [mkTimer (now p + delay)%N cb]) p.

(** The node has a parent: it is a child of the container. *)
Definition attached (id : nat) (p : Page) : bool :=
  match alertContainer p with
  | Some kids => existsb (λ a, Nat.eqb (alertId a) id) kids
  | None => false
  end.

Definition isSpace (u : N) : bool :=
  bool_decide (u ∈ [9; 10; 12; 13; 32]%N).

(** The class names of a [className] string. *)
Fixpoint classTokens (s cur : list N) : list (list N) :=
  match s with
  | [] => match cur with [] => [] | _ => [cur] end
  | c :: r =>
      if isSpace c
      then match cur with [] => classTokens r [] | _ => cur :: classTokens r [] end
      else classTokens r (cur ++ [c])
  end.

(** [el.classList] as the browser reads it from [className]: the class
    names in order, each once. *)
Definition tokenSet (s : list N) : list (list N) :=
  foldl (λ acc c, ClassList.add c acc) [] (classTokens s []).

(** [className] as the browser writes it back after a change of
    [classList]: the names joined by single spaces. *)
Fixpoint serialize (l : list (list N)) : list N :=
  match l with
  | [] => []
  | [c] => c
  | c :: r => c ++ 32%N :: serialize r
  end.

Definition fade : list N := Js.lit "fade".

(** The alert widget of the Bootstrap library, version 5, which is outside
    this script.  [close()] takes the class [show] off the element.  An
    element without the class [fade] is then removed from its parent at
    once.  An element with it stays where it is while it fades: the widget
    waits for the end of the transition, for which it sets a timer of its
    own, the duration of the transition in the stylesheet (150 ms in
    Bootstrap's) and 5 ms more; the element is removed when that end
    comes. *)
Definition transitionMs : N := 150.

Definition emulatedDuration : N := (transitionMs + 5)%N.

Definition animated (a : AlertEl) : bool :=
  ClassList.has fade (ClassList.remove show (tokenSet (className a))).

Definition withoutShow (a : AlertEl) : AlertEl :=
  mkAlert (alertId a)
    (serialize (ClassList.remove show (tokenSet (className a))))
    (innerHTML a).

(** The children of the container once [close()] has been called on the
    alert [id]. *)
Definition closeChildren (id : nat) (kids : list AlertEl) : list AlertEl :=
  flat_map
    (λ a, if Nat.eqb (alertId a) id
          then (if animated a then [withoutShow a] else [])
          else [a])
    kids.

(** The alert [id] is a child of the container and fades when closed. *)
Definition fading (id : nat) (kids : list AlertEl) : bool :=
  existsb (λ a, Nat.eqb (alertId a) id && animated a) kids.

(** [bootstrap.Alert.getOrCreateInstance(alert).close()]; on an element
    that is in no container of the page it changes nothing the page
    shows. *)
Definition bsAlertClose (id : nat) (p : Page) : Page :=
  match alertContainer p with
  | Some kids =>
      let q := set_alertContainer (Some (closeChildren id kids)) p in
      if fading id kids
      then setTimeout (transitionEnd id) emulatedDuration q
      else q
  | None => p
  end.

(** The widget removes the element from its parent. *)
Definition removeAlert (id : nat) (p : Page) : Page :=
  match alertContainer p with
  | Some kids =>
      set_alertContainer (Some (filter (λ a, alertId a ≠ id) kids)) p
  | None => p
  end.

(** A click on the [btn-close] button of an alert, which the widget
    handles through [data-bs-dismiss] by calling [close()]. *)
Definition dismiss (id : nat) (p : Page) : Page := bsAlertClose id p.

Definition isEndOf (id : nat) (tm : Timer) : bool :=
  match callback tm with
  | transitionEnd other => Nat.eqb other id
  | _ => false
  end.

(** The ends of transition still pending for the alert [id]: one for each
    [close()] called on it while it was fading. *)
Definition pendingEnds (id : nat) (l : list Timer) : nat :=
  length (filter (λ tm, isEndOf id tm = true) l).

(** One callback runs, its timer already taken off the queue.  At the end
    of the transition of an alert that is still in the container the
    widget removes it; every further [close()] that was called on it during
    the fade has left a handler of the same widget instance, which then
    fails on the instance the first has disposed of, a [TypeError] the
    event loop reports. *)
Definition runCallback (cb : Callback) (p : Page) : Result :=
  match cb with
  | closeAlert id => Ok (bsAlertClose id p)
  | closeAlertIfAttached id =>
      Ok (if attached id p then bsAlertClose id p else p)
  | transitionEnd id =>
      if attached id p
      then
        if Nat.ltb 0 (pendingEnds id (timers p))
        then Throw TypeError (removeAlert id p)
        else Ok (removeAlert id p)
      else Ok p
  end.

(** The timer that runs next, with the rest of the queue: the one due
    first, and of those due together the one set first. *)
Fixpoint popNext (l : list Timer) : option (Timer * list Timer) :=
  match l with
  | [] => None
  | x :: r =>
      match popNext r with
      | None => Some (x, [])
      | Some (y, r') =>
          if (due x <=? due y)%N then Some (x, r) else Some (y, x :: r')
      end
  end.

(** The event loop runs the callbacks due by [t], each at its due time,
    those they set included; it returns the page and the number of
    callbacks that failed.  A callback of the script sets at most one
    timer and one of the widget sets none, so [fuel] of twice the length
    of the queue lets every due callback run. *)
Fixpoint runTimers (fuel : nat) (t : N) (p : Page) : Page * nat :=
  match fuel with
  | O => (p, O)
  | S fuel' =>
      match popNext (timers p) with
      | Some (tm, rest) =>
          if (due tm <=? t)%N
          then
            let r := runCallback (callback tm)
                       (set_now (N.max (now p) (due tm)) (set_timers rest p)) in
            let '(q, n) := runTimers fuel' t (pageOf r) in
            (q, if thrown r then S n else n)
          else (p, O)
      | None => (p, O)
      end
  end.

(** The clock moves to [t]. *)
Definition advanceTo (t : N) (p : Page) : Page :=
  let q := fst (runTimers (2 * length (timers p)) t p) in
  set_now (N.max (now q) t) q.

(** The faults the event loop has reported by [t]. *)
Definition faultsBy (t : N) (p : Page) : nat :=
  snd (runTimers (2 * length (timers p)) t p).

Definition closeButton : list N :=
  Js.lit "<button type=" ++ dq ++ Js.lit "button" ++ dq
  ++ Js.lit " class=" ++ dq ++ Js.lit "btn-close" ++ dq
  ++ Js.lit " data-bs-dismiss=" ++ dq ++ Js.lit "alert" ++ dq
  ++ Js.lit "></button>".

(** The element [showAlert] creates. *)
Definition newAlert (id : nat) (message type : list N) : AlertEl :=
  mkAlert id
    (Js.lit "alert alert-" ++ type ++ Js.lit " alert-dismissible fade show")
    (message ++ closeButton).

Definition showAlert (message type : list N) (p : Page) : Page :=
  match alertContainer p with
  | None => p
  | Some kids =>
      let id := nextId p in
      let p := set_nextId (S id) p in
      let p := set_alertContainer (Some (newAlert id message type :: kids)) p in
      setTimeout (closeAlertIfAttached id) 5000 p
  end.

Definition dismissible (a : AlertEl) : bool :=
  ClassList.has (Js.lit "alert-dismissible") (classTokens (className a) []).

(** [initAutoCloseAlerts].  [querySelectorAll] ranges over the whole
    document, in document order: [before] and [after] are the alerts of the
    document that come before and after the children of the alert
    container, which are the alerts the page model holds; without a
    container every alert of the document is in [before]. *)
Definition initAutoCloseAlerts (before after : list AlertEl) (p : Page) : Page :=
  foldl (λ q a, setTimeout (closeAlert (alertId a)) 5000 q) p
    (filter (λ a, dismissible a = true)
       (before ++ default [] (alertContainer p) ++ after)).

(** ** Upload zone *)

Definition rejectMessage : list N :=
  Js.lit "Only PDF, DOCX, and TXT files are accepted.".

Definition withZoneClasses
    (f : list (list N) -> list (list N)) (p : Page) : Page :=
  match uploadZone p with
  | None => p
  | Some z => set_uploadZone (Some (mkZone (f (zoneClasses z)) (uploadText z))) p
  end.

Definition updateFileName (nm : list N) (p : Page) : Page :=
  match uploadZone p with
  | None => p
  | Some z =>
      match uploadText z with
      | Some _ =>
          set_uploadZone
            (Some (mkZone (zoneClasses z) (Some (Js.lit "Uploading: " ++ nm)))) p
      | None => p
      end
  end.

(** [document.getElementById('uploadForm').submit()]: a [TypeError] when
    the lookup gives [null]; otherwise the form is sent with the files the
    input holds at that moment. *)
Definition submitForm (p : Page) : Result :=
  if uploadForm p
  then Ok (set_submitted (default [] (cvFileInput p) :: submitted p) p)
  else Throw TypeError p.

(** [if (!zone || !input) return;] : the listeners of the zone and of the
    input are registered when both exist. *)
Definition uploadListeners (p : Page) : bool :=
  match uploadZone p, cvFileInput p with
  | Some _, Some _ => true
  | _, _ => false
  end.

(** The click listener of the zone calls [input.click()], which opens the
    picker; the click event that call dispatches at the input is not
    followed here. *)
Definition zoneClick (p : Page) : Page :=
  if uploadListeners p then set_pickerOpened (S (pickerOpened p)) p else p.

Definition zoneDragover (p : Page) : Page :=
  if uploadListeners p then withZoneClasses (ClassList.add dragover) p else p.

Definition zoneDragleave (p : Page) : Page :=
  if uploadListeners p then withZoneClasses (ClassList.remove dragover) p else p.

(** The drop listener, lines 77 to 92; [e.preventDefault()] acts on the
    event and leaves the page as it is. *)
Definition dropListener (files : list File) (p : Page) : Result :=
  let p := withZoneClasses (ClassList.remove dragover) p in
  match files with
  | [] => Ok p
  | file :: _ =>
      if notAllowed (name file)
      then Ok (showAlert rejectMessage danger p)
      else
        let p := set_cvFileInput (Some files) p in
        let p := updateFileName (name file) p in
        submitForm p
  end.

Definition dropEvent (files : list File) (p : Page) : Result :=
  if uploadListeners p then dropListener files p else Ok p.

(** The change listener of the input, lines 94 to 99. *)
Definition changeListener (p : Page) : Result :=
  match cvFileInput p with
  | Some (file :: _) => submitForm (updateFileName (name file) p)
  | _ => Ok p
  end.

Definition changeEvent (p : Page) : Result :=
  if uploadListeners p then changeListener p else Ok p.

(** The native picker reports the selection [files]: the browser stores it
    in the input and fires [change]. *)
Definition pick (files : list File) (p : Page) : Result :=
  match cvFileInput p with
  | Some _ => changeEvent (set_cvFileInput (Some files) p)
  | None => Ok p
  end.

(** [DOMContentLoaded]; [initSidebarToggle] and [initUploadZone] only
    register listeners. *)
Definition onLoad (before after : list AlertEl) (p : Page) : Page :=
  initAutoCloseAlerts before after (initThemeToggle p).

(** ** The extension as the specification words it

    The substring from the last full stop to the end of the name, in lower
    case; a name without a full stop has no extension. *)

Fixpoint lastDotSuffix (s : list N) : option (list N) :=
  match s with
  | [] => None
  | c :: r =>
      match lastDotSuffix r with
      | Some e => Some e
      | None => if (c =? dot)%N then Some (c :: r) else None
      end
  end.

Definition specExtension (nm : list N) : option (list N) :=
  Js.toLowerCase <$> lastDotSuffix nm.

(** The extension of the name is on the allow-list. *)
Definition extensionAllowed (nm : list N) : Prop :=
  ∃ e, specExtension nm = Some e ∧ e ∈ allowedExtensions.

(** ** What a listener of the upload zone did *)

(** The text the zone shows. *)
Definition statusText (p : Page) : option (list N) :=
  uploadZone p ≫= uploadText.

(** The listener returned and sent the form once. *)
Definition submitsOnce (p : Page) (r : Result) : Prop :=
  thrown r = false ∧ ∃ fs, submitted (pageOf r) = fs :: submitted p.

(** The page after the drop listener has taken the drag-active class off
    the zone. *)
Definition afterDropStart (p : Page) : Page :=
  withZoneClasses (ClassList.remove dragover) p.

(** The zone once the listener has shown the name of [file]: the text
    changes when the zone has a text element. *)
Definition uploadingZone (z : Zone) (classes : list (list N)) (file : File) : Zone :=
  mkZone classes ((λ _, Js.lit "Uploading: " ++ name file) <$> uploadText z).

(** The claim of C2 at one file name: the picker path sends the form
    exactly when the drop path does. *)
Definition sameDecision (nm : list N) (p : Page) : Prop :=
  submitsOnce p (pick [mkFile nm] p) ↔ submitsOnce p (dropEvent [mkFile nm] p).

(** The claim of C3 at one drop: whatever is sent with the form holds at
    most one file. *)
Definition oneFileAtSubmission (files : list File) (p : Page) : Prop :=
  ∀ sent, submitted (pageOf (dropEvent files p)) = sent :: submitted p →
          (length sent <= 1)%nat.

(** ** Pages used as concrete inputs *)

(** A page with every element the script binds to. *)
Definition fullPage : Page :=
  mkPage (Some moon_icon) (Some light) ∅
    (Some (Elem 1 [Elem 2 []]))
    (Some (mkSidebar [Js.lit "sidebar"; show] (Elem 3 [Elem 4 []; Elem 5 []])))
    800
    (Some (mkZone [Js.lit "upload-zone"; dragover]
             (Some (Js.lit "Drop your CV here"))))
    (Some []) 0 true [] (Some []) [] 0%N 10.

(** The same page without the upload form. *)
Definition pageWithoutForm : Page :=
  mkPage (themeToggle fullPage) (dataTheme fullPage) (localStorage fullPage)
    (sidebarToggle fullPage) (sidebar fullPage) (innerWidth fullPage)
    (uploadZone fullPage) (cvFileInput fullPage) (pickerOpened fullPage)
    false (submitted fullPage) (alertContainer fullPage) (timers fullPage)
    (now fullPage) (nextId fullPage).

Definition cv_pdf : File := mkFile (Js.lit "cv.pdf").
Definition setup_exe : File := mkFile (Js.lit "setup.exe").
(** A name that starts with U+0130: "İbrahim.pdf". *)
Definition ibrahim_pdf : File := mkFile (304%N :: Js.lit "brahim.pdf").

(** ** Observations on the widgets *)

(** The zone carries the class [c]. *)
Definition zoneHas (c : list N) (p : Page) : bool :=
  match uploadZone p with
  | Some z => ClassList.has c (zoneClasses z)
  | None => false
  end.

(** The sidebar carries the class [c]. *)
Definition sidebarHas (c : list N) (p : Page) : bool :=
  match sidebar p with
  | Some sb => ClassList.has c (sidebarClasses sb)
  | None => false
  end.

(** The alert a timer callback is about. *)
Definition callbackId (cb : Callback) : nat :=
  match cb with
  | closeAlert id | closeAlertIfAttached id | transitionEnd id => id
  end.

(** Node identities are handed out in increasing order: the alerts in the
    container and the alerts the pending timers refer to were created
    before the next node will be. *)
Definition freshIds (p : Page) : Prop :=
  (∀ a, a ∈ default [] (alertContainer p) → (alertId a < nextId p)%nat)
  ∧ (∀ tm, tm ∈ timers p → (callbackId (callback tm) < nextId p)%nat).

(** The timer [initAutoCloseAlerts] sets for the alert [a] on the page
    [p]. *)
Definition autoCloseTimer (p : Page) (a : AlertEl) : Timer :=
  mkTimer (now p + 5000)%N (closeAlert (alertId a)).

(** What a pending timer can still cost the event loop: a callback of the
    script may set one timer of the widget, a timer of the widget sets
    none. *)
Definition timerWeight (tm : Timer) : nat :=
  match callback tm with
  | transitionEnd _ => 1
  | _ => 2
  end.

Definition queueWeight (l : list Timer) : nat :=
  foldr (λ tm n, (timerWeight tm + n)%nat) O l.

(** A page with two alerts rendered by the server, the first dismissible,
    the second not. *)
Definition pageWithAlerts : Page :=
  set_alertContainer
    (Some [mkAlert 7 (Js.lit "alert alert-info alert-dismissible fade show")
             (Js.lit "Saved.");
           mkAlert 8 (Js.lit "alert alert-warning") (Js.lit "Quota low.")])
    fullPage.

(** The page without the alert container. *)
Definition pageWithoutAlerts : Page := set_alertContainer None fullPage.

(** A dismissible alert of the document outside the alert container. *)
Definition strayAlert : AlertEl :=
  mkAlert 6 (Js.lit "alert alert-success alert-dismissible fade show")
    (Js.lit "Welcome back.").

(** A click whose target is inside the theme toggle, as the listeners of
    the script see it: the toggle's listener runs, then the listener of the
    sidebar button when the target is inside the button too, then the
    listener of the document.  The toggle is taken to be outside the upload
    zone. *)
Definition toggleClickEvent (target : nat) (p : Page) : Page :=
  sidebarClickEvent target (themeClick p).

(** ** The claims that fail as stated *)


(** The claim of C9 on a click inside: at a width of at most 992, a click
    whose target is inside the sidebar or inside its toggle button does not
    take [show] off a sidebar that is shown. *)
Definition insideClickKeepsShow (target : nat) (p : Page) : Prop :=
  ∀ btn sb,
    sidebarToggle p = Some btn →
    sidebar p = Some sb →
    innerWidth p <= 992 →
    contains (sidebarTree sb) target = true ∨ contains btn target = true →
    sidebarShown p = true →
    sidebarShown (sidebarClickEvent target p) = true.

(** Projections of a page after setters, without unfolding anything
    else. *)
Ltac page_cbn :=
  cbn [themeToggle dataTheme localStorage sidebarToggle sidebar innerWidth
       uploadZone cvFileInput pickerOpened uploadForm submitted
       alertContainer timers now nextId
       set_themeToggle set_dataTheme set_localStorage set_sidebar
       set_uploadZone set_cvFileInput set_pickerOpened set_submitted
       set_alertContainer set_timers set_now set_nextId].

Ltac page_cbn_in H :=
  cbn [themeToggle dataTheme localStorage sidebarToggle sidebar innerWidth
       uploadZone cvFileInput pickerOpened uploadForm submitted
       alertContainer timers now nextId
       set_themeToggle set_dataTheme set_localStorage set_sidebar
       set_uploadZone set_cvFileInput set_pickerOpened set_submitted
       set_alertContainer set_timers set_now set_nextId] in H.

(** ** Strings: lower case, the last full stop, the slice *)

Example ext_report : ext (Js.lit "REPORT.PDF") = Js.lit ".pdf".
Proof. reflexivity. Qed.

Example ext_trailing_space : notAllowed (Js.lit "cv.PDF ") = true.
Proof. reflexivity. Qed.

Example ext_none : ext (Js.lit "README") = Js.lit "readme".
Proof. reflexivity. Qed.

Example ext_dotted_I : ext (304%N :: Js.lit ".pdf") = 775%N :: Js.lit ".pdf".
Proof. reflexivity. Qed.

Lemma toLowerCaseUnit_nonempty (u : N) : (1 <= length (Js.toLowerCaseUnit u))%nat.
Proof.
  unfold Js.toLowerCaseUnit.
  repeat (match goal with |- context [if ?b then _ else _] => destruct b end);
    simpl; lia.
Qed.

Lemma toLowerCaseUnit_dot (u : N) : dot ∈ Js.toLowerCaseUnit u → u = dot.
Proof.
  unfold Js.toLowerCaseUnit, dot.
  repeat (match goal with
          | |- context [if ?b then _ else _] => destruct b eqn:?
          end);
    intros Hin; repeat (apply elem_of_cons in Hin as [Hin | Hin]);
    try (apply elem_of_nil in Hin; contradiction);
    try discriminate;
    repeat match goal with
           | H : _ && _ = true |- _ => apply andb_true_iff in H as [? ?]
           | H : (_ <=? _)%N = true |- _ => apply N.leb_le in H
           | H : (_ =? _)%N = true |- _ => apply N.eqb_eq in H
           end;
    lia.
Qed.

Lemma toLowerCase_app (a b : list N) :
  Js.toLowerCase (a ++ b) = Js.toLowerCase a ++ Js.toLowerCase b.
Proof. unfold Js.toLowerCase. apply flat_map_app. Qed.

Lemma toLowerCase_length (s : list N) :
  (length s <= length (Js.toLowerCase s))%nat.
Proof.
  induction s as [| c r IH]; [simpl; lia |].
  change (Js.toLowerCase (c :: r))
    with (Js.toLowerCaseUnit c ++ Js.toLowerCase r).
  rewrite length_app. pose proof (toLowerCaseUnit_nonempty c).
  simpl length. lia.
Qed.

Lemma toLowerCase_dot (s : list N) : dot ∈ Js.toLowerCase s → dot ∈ s.
Proof.
  induction s as [| c r IH]; [trivial |].
  change (Js.toLowerCase (c :: r))
    with (Js.toLowerCaseUnit c ++ Js.toLowerCase r).
  intros [Hc | Hr]%elem_of_app.
  - apply toLowerCaseUnit_dot in Hc. subst. apply list_elem_of_here.
  - apply list_elem_of_further, IH, Hr.
Qed.

Lemma lastDotSuffix_None (s : list N) : lastDotSuffix s = None → dot ∉ s.
Proof.
  induction s as [| c r IH]; cbn [lastDotSuffix].
  - intros _ H. by apply elem_of_nil in H.
  - destruct (lastDotSuffix r); [discriminate |].
    destruct (N.eqb_spec c dot); [discriminate |].
    intros _ [Heq | H]%elem_of_cons; [congruence | by apply IH].
Qed.

Lemma lastDotSuffix_absent (s : list N) : dot ∉ s → lastDotSuffix s = None.
Proof.
  induction s as [| c r IH]; cbn [lastDotSuffix]; [reflexivity |].
  intros H. rewrite IH by (intros Hr; apply H; by apply list_elem_of_further).
  destruct (N.eqb_spec c dot) as [-> |]; [| reflexivity].
  exfalso. apply H, list_elem_of_here.
Qed.

Lemma lastDotSuffix_app (pre suf : list N) :
  dot ∉ suf → lastDotSuffix (pre ++ dot :: suf) = Some (dot :: suf).
Proof.
  intros Hsuf. induction pre as [| c r IH].
  - change ([] ++ dot :: suf) with (dot :: suf). cbn [lastDotSuffix].
    by rewrite (lastDotSuffix_absent _ Hsuf).
  - change ((c :: r) ++ dot :: suf) with (c :: (r ++ dot :: suf)).
    cbn [lastDotSuffix]. by rewrite IH.
Qed.

Lemma lastDotSuffix_Some (s e : list N) :
  lastDotSuffix s = Some e →
  ∃ pre suf, s = pre ++ dot :: suf ∧ e = dot :: suf ∧ dot ∉ suf.
Proof.
  revert e. induction s as [| c r IH]; cbn [lastDotSuffix]; [discriminate |].
  intros e. destruct (lastDotSuffix r) eqn:E.
  - intros [= <-]. destruct (IH _ eq_refl) as (pre & suf & -> & -> & Hs).
    by exists (c :: pre), suf.
  - destruct (N.eqb_spec c dot); [| discriminate].
    intros [= <-]. subst c. exists [], r. split_and!; try done.
    by apply lastDotSuffix_None.
Qed.

Lemma lastIndexFrom_dot (s : list N) (i found : Z) :
  Js.lastIndexFrom s dot i found
  = match lastDotSuffix s with
    | None => found
    | Some e => i + (Z.of_nat (length s) - Z.of_nat (length e))
    end.
Proof.
  revert i found. induction s as [| c r IH]; intros i found; cbn [lastDotSuffix Js.lastIndexFrom];
    [reflexivity |].
  rewrite IH. destruct (lastDotSuffix r).
  - cbn [length]. lia.
  - destruct (c =? dot)%N; cbn [length]; [lia | reflexivity].
Qed.

Lemma lastIndexOf_no_dot (s : list N) :
  lastDotSuffix s = None → Js.lastIndexOf s dot = -1.
Proof. intros H. unfold Js.lastIndexOf. by rewrite lastIndexFrom_dot, H. Qed.

Lemma lastIndexOf_dot (pre suf : list N) :
  dot ∉ suf → Js.lastIndexOf (pre ++ dot :: suf) dot = Z.of_nat (length pre).
Proof.
  intros H. unfold Js.lastIndexOf.
  rewrite lastIndexFrom_dot, (lastDotSuffix_app _ _ H), length_app.
  simpl. lia.
Qed.

(** The slice the script takes of a name without a full stop is the
    whole lower-case name. *)
Lemma ext_no_dot (nm : list N) :
  lastDotSuffix nm = None → ext nm = Js.toLowerCase nm.
Proof.
  intros H. unfold ext, Js.substring. rewrite (lastIndexOf_no_dot _ H).
  replace (Z.to_nat _) with 0%nat by lia. reflexivity.
Qed.

(** The slice of a name with a full stop starts, in the lower-case name,
    at the index the full stop has in the name itself. *)
Lemma ext_dot (pre suf : list N) :
  dot ∉ suf →
  ext (pre ++ dot :: suf)
  = drop (length pre) (Js.toLowerCase pre) ++ dot :: Js.toLowerCase suf.
Proof.
  intros H. unfold ext, Js.substring. rewrite (lastIndexOf_dot _ _ H).
  rewrite toLowerCase_app. pose proof (toLowerCase_length pre) as Hl.
  replace (Z.to_nat _) with (length pre)
    by (rewrite length_app; lia).
  rewrite drop_app_le by exact Hl. reflexivity.
Qed.

(** When lower-casing keeps the length of what precedes the last full
    stop, the script's slice is the extension of the specification. *)
Lemma ext_specExtension (pre suf : list N) :
  dot ∉ suf →
  length (Js.toLowerCase pre) = length pre →
  specExtension (pre ++ dot :: suf) = Some (ext (pre ++ dot :: suf)).
Proof.
  intros H Hlen. rewrite (ext_dot _ _ H). unfold specExtension.
  rewrite (lastDotSuffix_app _ _ H). simpl.
  rewrite <- Hlen, drop_all. reflexivity.
Qed.

Lemma indexOf_allowed (x : list N) :
  Js.indexOf allowedExtensions x ≠ -1 ↔ x ∈ allowedExtensions.
Proof.
  unfold Js.indexOf, allowedExtensions. cbn [Js.indexFrom].
  rewrite !elem_of_cons, elem_of_nil.
  repeat case_decide; split; intros Hx; try lia; try congruence; auto.
  destruct Hx as [? | [? | [? | []]]]; congruence.
Qed.

Lemma notAllowed_false (nm : list N) :
  notAllowed nm = false ↔ ext nm ∈ allowedExtensions.
Proof.
  unfold notAllowed. rewrite <- indexOf_allowed.
  destruct (Z.eqb_spec (Js.indexOf allowedExtensions (ext nm)) (-1));
    split; intros; congruence.
Qed.

(** Every entry of the allow-list is a full stop followed by units that
    are not full stops. *)
Lemma allowed_shape (x : list N) :
  x ∈ allowedExtensions → ∃ body, x = dot :: body ∧ dot ∉ body.
Proof.
  unfold allowedExtensions. intros H.
  repeat (apply elem_of_cons in H as [-> | H]);
    [| | | by apply elem_of_nil in H];
    eexists; (split; [reflexivity |]);
    intros Hin; repeat (apply elem_of_cons in Hin as [Hin | Hin]);
    try discriminate; by apply elem_of_nil in Hin.
Qed.

(** What the script accepts has an extension on the allow-list. *)
Lemma accepted_extensionAllowed (nm : list N) :
  notAllowed nm = false → extensionAllowed nm.
Proof.
  rewrite notAllowed_false. intros Hin.
  destruct (lastDotSuffix nm) as [e |] eqn:E.
  - destruct (lastDotSuffix_Some _ _ E) as (pre & suf & -> & -> & Hsuf).
    rewrite (ext_dot _ _ Hsuf) in Hin.
    exists (Js.toLowerCase (dot :: suf)). split.
    + unfold specExtension. by rewrite E.
    + destruct (drop (length pre) (Js.toLowerCase pre)) as [| c x] eqn:Ed.
      * exact Hin.
      * exfalso. destruct (allowed_shape _ Hin) as (body & Heq & Hbody).
        simpl in Heq. injection Heq as _ Heq. apply Hbody. rewrite <- Heq.
        apply elem_of_app. right. apply list_elem_of_here.
  - exfalso. rewrite (ext_no_dot _ E) in Hin.
    destruct (allowed_shape _ Hin) as (body & Heq & _).
    apply (lastDotSuffix_None _ E), toLowerCase_dot.
    rewrite Heq. apply list_elem_of_here.
Qed.

(** Conversely, when lower-casing keeps the length of the name, an
    extension on the allow-list is accepted. *)
Lemma extensionAllowed_accepted (nm : list N) :
  length (Js.toLowerCase nm) = length nm →
  extensionAllowed nm → notAllowed nm = false.
Proof.
  intros Hlen (e & He & Hin). apply notAllowed_false.
  destruct (lastDotSuffix nm) as [e' |] eqn:E;
    [| unfold specExtension in He; rewrite E in He; discriminate].
  destruct (lastDotSuffix_Some _ _ E) as (pre & suf & -> & -> & Hsuf).
  assert (length (Js.toLowerCase pre) = length pre) as Hpre.
  { rewrite toLowerCase_app, !length_app in Hlen.
    pose proof (toLowerCase_length pre).
    pose proof (toLowerCase_length (dot :: suf)). lia. }
  rewrite (ext_specExtension _ _ Hsuf Hpre) in He.
  injection He as <-. exact Hin.
Qed.

(** ** The upload zone at work *)

Example drop_resume_docx :
  dropEvent [mkFile (Js.lit "Resume.DOCX")] fullPage
  = Ok (mkPage (themeToggle fullPage) (dataTheme fullPage) ∅
          (sidebarToggle fullPage) (sidebar fullPage) 800
          (Some (mkZone [Js.lit "upload-zone"]
                   (Some (Js.lit "Uploading: Resume.DOCX"))))
          (Some [mkFile (Js.lit "Resume.DOCX")]) 0 true
          [[mkFile (Js.lit "Resume.DOCX")]] (Some []) [] 0%N 10).
Proof. reflexivity. Qed.

Example drop_archive_zip :
  dropEvent [mkFile (Js.lit "archive.zip")] fullPage
  = Ok (mkPage (themeToggle fullPage) (dataTheme fullPage) ∅
          (sidebarToggle fullPage) (sidebar fullPage) 800
          (Some (mkZone [Js.lit "upload-zone"]
                   (Some (Js.lit "Drop your CV here"))))
          (Some []) 0 true []
          (Some [newAlert 10 rejectMessage danger])
          [mkTimer 5000%N (closeAlertIfAttached 10)] 0%N 11).
Proof. reflexivity. Qed.

Example spec_extension_ibrahim :
  specExtension (name ibrahim_pdf) = Some (Js.lit ".pdf").
Proof. reflexivity. Qed.

Lemma has_remove (c : list N) (l : list (list N)) :
  ClassList.has c (ClassList.remove c l) = false.
Proof.
  unfold ClassList.has, ClassList.remove.
  apply bool_decide_eq_false. rewrite list_elem_of_filter. tauto.
Qed.

Lemma not_extensionAllowed_rejected (nm : list N) :
  ¬ extensionAllowed nm → notAllowed nm = true.
Proof.
  intros H. destruct (notAllowed nm) eqn:E; [reflexivity |].
  exfalso. by apply H, accepted_extensionAllowed.
Qed.

(** The drop listener on a rejected first file. *)
Lemma dropEvent_rejected (p : Page) (file : File) (rest : list File) :
  uploadListeners p = true →
  notAllowed (name file) = true →
  dropEvent (file :: rest) p
  = Ok (showAlert rejectMessage danger (afterDropStart p)).
Proof.
  intros Hl Hn. unfold dropEvent, dropListener. by rewrite Hl, Hn.
Qed.

(** The drop listener on an accepted first file. *)
Lemma dropEvent_accepted (p : Page) (file : File) (rest : list File) :
  uploadListeners p = true →
  notAllowed (name file) = false →
  dropEvent (file :: rest) p
  = submitForm
      (updateFileName (name file)
         (set_cvFileInput (Some (file :: rest)) (afterDropStart p))).
Proof.
  intros Hl Hn. unfold dropEvent, dropListener. by rewrite Hl, Hn.
Qed.

(** The change listener after the picker has reported a selection. *)
Lemma pick_nonempty (p : Page) (file : File) (rest : list File) :
  uploadListeners p = true →
  pick (file :: rest) p
  = submitForm
      (updateFileName (name file) (set_cvFileInput (Some (file :: rest)) p)).
Proof.
  unfold uploadListeners, pick, changeEvent, changeListener, uploadListeners.
  destruct p as [? ? ? ? ? ? [z |] [fs |] ? ? ? ? ? ? ?]; simpl;
    intros H; try discriminate; reflexivity.
Qed.

Lemma submitForm_absent (p : Page) :
  uploadForm p = false → submitForm p = Throw TypeError p.
Proof. intros H. unfold submitForm. by rewrite H. Qed.

Lemma submitForm_present (p : Page) :
  uploadForm p = true →
  submitForm p
  = Ok (set_submitted (default [] (cvFileInput p) :: submitted p) p).
Proof. intros H. unfold submitForm. by rewrite H. Qed.

Lemma uploadForm_updateFileName (nm : list N) (p : Page) :
  uploadForm (updateFileName nm p) = uploadForm p.
Proof.
  unfold updateFileName. destruct (uploadZone p) as [z |]; [| reflexivity].
  by destruct (uploadText z).
Qed.

Lemma uploadForm_afterDropStart (p : Page) :
  uploadForm (afterDropStart p) = uploadForm p.
Proof.
  unfold afterDropStart, withZoneClasses. by destruct (uploadZone p).
Qed.

(** C1, as the script has it: with the zone and the input on the page and
    no upload form, an accepted drop and a non-empty picker selection both
    end in a [TypeError], raised by [submit()] on the missing form. *)
Theorem missing_form_throws (p : Page) (file : File) (rest : list File) :
  uploadListeners p = true →
  uploadForm p = false →
  (notAllowed (name file) = false →
   ∃ q, dropEvent (file :: rest) p = Throw TypeError q)
  ∧ ∃ q, pick (file :: rest) p = Throw TypeError q.
Proof.
  intros Hl Hf. split.
  - intros Hn. rewrite (dropEvent_accepted _ _ _ Hl Hn).
    eexists. apply submitForm_absent.
    rewrite uploadForm_updateFileName. simpl.
    by rewrite uploadForm_afterDropStart.
  - rewrite (pick_nonempty _ _ _ Hl). eexists. apply submitForm_absent.
    by rewrite uploadForm_updateFileName.
Qed.

Lemma missing_form_throws_witness :
  (notAllowed (name cv_pdf) = false →
   ∃ q, dropEvent [cv_pdf] pageWithoutForm = Throw TypeError q)
  ∧ ∃ q, pick [cv_pdf] pageWithoutForm = Throw TypeError q.
Proof.
  apply (missing_form_throws pageWithoutForm cv_pdf []); reflexivity.
Defined.

Example drop_without_form :
  dropEvent [cv_pdf] pageWithoutForm
  = Throw TypeError
      (mkPage (themeToggle fullPage) (dataTheme fullPage) ∅
         (sidebarToggle fullPage) (sidebar fullPage) 800
         (Some (mkZone [Js.lit "upload-zone"] (Some (Js.lit "Uploading: cv.pdf"))))
         (Some [cv_pdf]) 0 false [] (Some []) [] 0%N 10).
Proof. reflexivity. Qed.

(** The page an accepted drop leaves behind. *)
Lemma drop_accepts (p : Page) (z : Zone) (fs : list File)
    (file : File) (rest : list File) :
  uploadZone p = Some z →
  cvFileInput p = Some fs →
  uploadForm p = true →
  notAllowed (name file) = false →
  dropEvent (file :: rest) p
  = Ok (set_submitted ((file :: rest) :: submitted p)
          (set_uploadZone
             (Some (uploadingZone z (ClassList.remove dragover (zoneClasses z)) file))
             (set_cvFileInput (Some (file :: rest)) p))).
Proof.
  intros Hz Hi Hf Hn. rewrite dropEvent_accepted; [| | exact Hn].
  - destruct p, z as [cls [t |]]; simpl in *; subst; reflexivity.
  - unfold uploadListeners. by rewrite Hz, Hi.
Qed.

(** The page a non-empty picker selection leaves behind. *)
Lemma pick_submits (p : Page) (z : Zone) (fs : list File)
    (file : File) (rest : list File) :
  uploadZone p = Some z →
  cvFileInput p = Some fs →
  uploadForm p = true →
  pick (file :: rest) p
  = Ok (set_submitted ((file :: rest) :: submitted p)
          (set_uploadZone (Some (uploadingZone z (zoneClasses z) file))
             (set_cvFileInput (Some (file :: rest)) p))).
Proof.
  intros Hz Hi Hf. rewrite pick_nonempty.
  - destruct p, z as [cls [t |]]; simpl in *; subst; reflexivity.
  - unfold uploadListeners. by rewrite Hz, Hi.
Qed.

(** The page a rejected drop leaves behind, when there is an alert
    container. *)
Lemma drop_rejects_page (p : Page) (z : Zone) (fs : list File)
    (kids : list AlertEl) (file : File) (rest : list File) :
  uploadZone p = Some z →
  cvFileInput p = Some fs →
  alertContainer p = Some kids →
  notAllowed (name file) = true →
  dropEvent (file :: rest) p
  = Ok (set_timers
          (timers p ++ [mkTimer (now p + 5000)%N (closeAlertIfAttached (nextId p))])
          (set_alertContainer
             (Some (newAlert (nextId p) rejectMessage danger :: kids))
             (set_nextId (S (nextId p))
                (set_uploadZone
                   (Some (mkZone (ClassList.remove dragover (zoneClasses z))
                            (uploadText z))) p)))).
Proof.
  intros Hz Hi Hc Hn. rewrite dropEvent_rejected; [| | exact Hn].
  - destruct p; simpl in *; subst. reflexivity.
  - unfold uploadListeners. by rewrite Hz, Hi.
Qed.

(** C2 fails as stated: for "setup.exe" on a page with every element, the
    picker path sends the form and the drop path does not. *)
Lemma picker_accepts_what_drop_rejects :
  ¬ sameDecision (name setup_exe) fullPage.
Proof.
  intros [Hpick _].
  assert (submitsOnce fullPage (pick [mkFile (name setup_exe)] fullPage)) as Hs.
  { split; [reflexivity |]. by eexists. }
  destruct (Hpick Hs) as [_ [fs Hfs]]. vm_compute in Hfs. discriminate.
Qed.

(** C2, amended: the check is on the drop path only.  The picker path
    sends the form for every non-empty selection; the drop path sends it
    exactly when the slice of the first name is on the allow-list; so the
    picker path sends whatever the drop path sends. *)
Theorem check_on_drop_path_only (p : Page) (file : File) (rest : list File) :
  uploadListeners p = true →
  uploadForm p = true →
  submitsOnce p (pick (file :: rest) p)
  ∧ (submitsOnce p (dropEvent (file :: rest) p) ↔ notAllowed (name file) = false)
  ∧ (submitsOnce p (dropEvent (file :: rest) p) →
     submitsOnce p (pick (file :: rest) p)).
Proof.
  intros Hl Hf.
  assert (∃ z fs, uploadZone p = Some z ∧ cvFileInput p = Some fs)
    as (z & fs & Hz & Hi).
  { unfold uploadListeners in Hl.
    destruct (uploadZone p), (cvFileInput p); try discriminate; eauto. }
  assert (submitsOnce p (pick (file :: rest) p)) as Hpick.
  { rewrite (pick_submits _ _ _ _ _ Hz Hi Hf). split; [reflexivity |].
    by eexists. }
  split_and!; [exact Hpick | | intros _; exact Hpick].
  destruct (notAllowed (name file)) eqn:Hn.
  - split; [| discriminate]. intros [_ [sent Hsent]]. exfalso.
    rewrite (dropEvent_rejected _ _ _ Hl Hn) in Hsent.
    unfold showAlert, afterDropStart, withZoneClasses in Hsent.
    rewrite Hz in Hsent. simpl in Hsent.
    destruct (alertContainer p); simpl in Hsent;
      apply (f_equal length) in Hsent; simpl in Hsent; lia.
  - split; [reflexivity |]. intros _.
    rewrite (drop_accepts _ _ _ _ _ Hz Hi Hf Hn). split; [reflexivity |].
    by eexists.
Qed.

Lemma check_on_drop_path_only_witness :
  submitsOnce fullPage (pick [setup_exe] fullPage)
  ∧ (submitsOnce fullPage (dropEvent [setup_exe] fullPage)
     ↔ notAllowed (name setup_exe) = false)
  ∧ (submitsOnce fullPage (dropEvent [setup_exe] fullPage) →
     submitsOnce fullPage (pick [setup_exe] fullPage)).
Proof.
  apply (check_on_drop_path_only fullPage setup_exe []); reflexivity.
Defined.

(** C3 fails as stated: a drop of "cv.pdf" and "setup.exe" sends the form
    with both files in the input. *)
Lemma two_files_dropped_two_attached :
  ¬ oneFileAtSubmission [cv_pdf; setup_exe] fullPage.
Proof.
  intros H. specialize (H [cv_pdf; setup_exe] eq_refl). simpl in H. lia.
Qed.

(** C3, amended: of the dropped files only the first is checked against
    the allow-list and named in the status text; when it passes, the input
    receives the whole dropped set, which is what the form is sent with, so
    as many files are attached as were dropped. *)
Theorem drop_checks_first_attaches_all
    (p : Page) (z : Zone) (fs : list File) (file : File) (rest : list File) :
  uploadZone p = Some z →
  cvFileInput p = Some fs →
  uploadForm p = true →
  (notAllowed (name file) = true →
   submitted (pageOf (dropEvent (file :: rest) p)) = submitted p
   ∧ cvFileInput (pageOf (dropEvent (file :: rest) p)) = Some fs)
  ∧ (notAllowed (name file) = false →
     ∃ q, dropEvent (file :: rest) p = Ok q
          ∧ cvFileInput q = Some (file :: rest)
          ∧ submitted q = (file :: rest) :: submitted p
          ∧ statusText q
            = (λ _, Js.lit "Uploading: " ++ name file) <$> uploadText z).
Proof.
  intros Hz Hi Hf. split; intros Hn.
  - rewrite dropEvent_rejected;
      [| unfold uploadListeners; by rewrite Hz, Hi | exact Hn].
    unfold showAlert, afterDropStart, withZoneClasses. rewrite Hz. simpl.
    destruct (alertContainer p); simpl; by rewrite ?Hi.
  - rewrite (drop_accepts _ _ _ _ _ Hz Hi Hf Hn). eexists.
    split; [reflexivity |]. by split_and!.
Qed.

Lemma drop_checks_first_attaches_all_witness :
  (notAllowed (name cv_pdf) = true →
   submitted (pageOf (dropEvent [cv_pdf; setup_exe] fullPage)) = []
   ∧ cvFileInput (pageOf (dropEvent [cv_pdf; setup_exe] fullPage)) = Some [])
  ∧ (notAllowed (name cv_pdf) = false →
     ∃ q, dropEvent [cv_pdf; setup_exe] fullPage = Ok q
          ∧ cvFileInput q = Some [cv_pdf; setup_exe]
          ∧ submitted q = [[cv_pdf; setup_exe]]
          ∧ statusText q = Some (Js.lit "Uploading: " ++ name cv_pdf)).
Proof.
  apply (drop_checks_first_attaches_all fullPage
           (mkZone [Js.lit "upload-zone"; dragover]
              (Some (Js.lit "Drop your CV here")))
           [] cv_pdf [setup_exe]); reflexivity.
Defined.

(** C4, where the script departs from it: "İbrahim.pdf" has the extension
    ".pdf", yet the drop listener rejects it, because the index of the full
    stop is taken in the name and the slice in its lower-case form, which
    is one code unit longer.  The alert is shown, the input keeps its
    files and the form is not sent. *)
Theorem dotted_capital_I_pdf_rejected :
  extensionAllowed (name ibrahim_pdf)
  ∧ ext (name ibrahim_pdf) = Js.lit "m.pdf"
  ∧ dropEvent [ibrahim_pdf] fullPage
    = Ok (showAlert rejectMessage danger (afterDropStart fullPage))
  ∧ cvFileInput (pageOf (dropEvent [ibrahim_pdf] fullPage)) = Some []
  ∧ submitted (pageOf (dropEvent [ibrahim_pdf] fullPage)) = [].
Proof.
  split_and!; try reflexivity.
  exists (Js.lit ".pdf"). split; [reflexivity |]. apply list_elem_of_here.
Qed.

(** Where lower-casing keeps the length of the name, C4 holds: an
    extension on the allow-list is accepted, the input receives the
    dropped files, the text shows the name and the form is sent once. *)
Lemma drop_accepts_allowed_extension
    (p : Page) (z : Zone) (t : list N) (fs : list File)
    (file : File) (rest : list File) :
  uploadZone p = Some z →
  uploadText z = Some t →
  cvFileInput p = Some fs →
  uploadForm p = true →
  length (Js.toLowerCase (name file)) = length (name file) →
  extensionAllowed (name file) →
  ∃ q, dropEvent (file :: rest) p = Ok q
       ∧ cvFileInput q = Some (file :: rest)
       ∧ statusText q = Some (Js.lit "Uploading: " ++ name file)
       ∧ submitted q = (file :: rest) :: submitted p.
Proof.
  intros Hz Ht Hi Hf Hlen Hext.
  rewrite (drop_accepts _ _ _ _ _ Hz Hi Hf
             (extensionAllowed_accepted _ Hlen Hext)).
  eexists. split; [reflexivity |]. split_and!; try reflexivity.
  unfold statusText. simpl. by rewrite Ht.
Qed.

(** C5: a dropped file whose extension is not on the allow-list (no
    extension at all included) is rejected.  On a page with an alert
    container, the alert of class [alert-danger] with the fixed message is
    put first in the container; the form is not sent, and the input, the
    form and the status text stay as they were. *)
Theorem drop_rejects
    (p : Page) (kids : list AlertEl) (file : File) (rest : list File) :
  uploadListeners p = true →
  alertContainer p = Some kids →
  ¬ extensionAllowed (name file) →
  ∃ q, dropEvent (file :: rest) p = Ok q
       ∧ alertContainer q
         = Some (mkAlert (nextId p)
                   (Js.lit "alert alert-danger alert-dismissible fade show")
                   (rejectMessage ++ closeButton) :: kids)
       ∧ submitted q = submitted p
       ∧ cvFileInput q = cvFileInput p
       ∧ uploadForm q = uploadForm p
       ∧ statusText q = statusText p.
Proof.
  intros Hl Hc Hext.
  assert (∃ z fs, uploadZone p = Some z ∧ cvFileInput p = Some fs)
    as (z & fs & Hz & Hi).
  { unfold uploadListeners in Hl.
    destruct (uploadZone p), (cvFileInput p); try discriminate; eauto. }
  rewrite (drop_rejects_page _ _ _ _ _ _ Hz Hi Hc
             (not_extensionAllowed_rejected _ Hext)).
  eexists. split; [reflexivity |]. split_and!; try reflexivity.
  unfold statusText. simpl. by rewrite Hz.
Qed.

Lemma setup_exe_not_allowed : ¬ extensionAllowed (name setup_exe).
Proof.
  intros (e & He & Hin). vm_compute in He. injection He as <-.
  unfold allowedExtensions in Hin.
  repeat (apply elem_of_cons in Hin as [Hin | Hin]; [discriminate |]).
  by apply elem_of_nil in Hin.
Defined.

Lemma drop_rejects_witness :
  ∃ q, dropEvent [setup_exe] fullPage = Ok q
       ∧ alertContainer q
         = Some [mkAlert 10
                   (Js.lit "alert alert-danger alert-dismissible fade show")
                   (rejectMessage ++ closeButton)]
       ∧ submitted q = []
       ∧ cvFileInput q = Some []
       ∧ uploadForm q = true
       ∧ statusText q = Some (Js.lit "Drop your CV here").
Proof.
  apply (drop_rejects fullPage [] setup_exe []);
    [reflexivity | reflexivity | exact setup_exe_not_allowed].
Defined.

(** The three rejected shapes the specification names. *)
Example exe_rejected : notAllowed (Js.lit "setup.exe") = true.
Proof. reflexivity. Qed.

Example no_extension_rejected :
  specExtension (Js.lit "README") = None ∧ notAllowed (Js.lit "README") = true.
Proof. split; reflexivity. Qed.

Example trailing_space_rejected :
  specExtension (Js.lit "cv.PDF ") = Some (Js.lit ".pdf ")
  ∧ notAllowed (Js.lit "cv.PDF ") = true.
Proof. split; reflexivity. Qed.

(** C6: for every non-empty selection the picker reports, whatever the
    name of its first file, the change listener shows "Uploading: " and
    the name in the zone's text and sends the form, at once and once;
    nothing is checked and no alert is shown. *)
Theorem picker_submits_unchecked
    (p : Page) (z : Zone) (t : list N) (fs : list File)
    (file : File) (rest : list File) :
  uploadZone p = Some z →
  uploadText z = Some t →
  cvFileInput p = Some fs →
  uploadForm p = true →
  ∃ q, pick (file :: rest) p = Ok q
       ∧ statusText q = Some (Js.lit "Uploading: " ++ name file)
       ∧ submitted q = (file :: rest) :: submitted p
       ∧ alertContainer q = alertContainer p.
Proof.
  intros Hz Ht Hi Hf. rewrite (pick_submits _ _ _ _ _ Hz Hi Hf).
  eexists. split; [reflexivity |]. split_and!; try reflexivity.
  unfold statusText. simpl. by rewrite Ht.
Qed.

Lemma picker_submits_unchecked_witness :
  ∃ q, pick [setup_exe] fullPage = Ok q
       ∧ statusText q = Some (Js.lit "Uploading: " ++ name setup_exe)
       ∧ submitted q = [[setup_exe]]
       ∧ alertContainer q = Some [].
Proof.
  apply (picker_submits_unchecked fullPage
           (mkZone [Js.lit "upload-zone"; dragover]
              (Some (Js.lit "Drop your CV here")))
           (Js.lit "Drop your CV here") [] setup_exe []); reflexivity.
Defined.

(** C10: a drop that carries no file only takes the class [dragover] off
    the zone.  The page is otherwise the one before the drop: no alert and
    no timer is added, the input, the status text and the record of
    submissions are as they were, and nothing is thrown. *)
Theorem empty_drop_only_clears_dragover (p : Page) (z : Zone) (fs : list File) :
  uploadZone p = Some z →
  cvFileInput p = Some fs →
  dropEvent [] p
  = Ok (set_uploadZone
          (Some (mkZone (ClassList.remove dragover (zoneClasses z))
                   (uploadText z))) p)
  ∧ ClassList.has dragover
      (ClassList.remove dragover (zoneClasses z)) = false
  ∧ alertContainer (pageOf (dropEvent [] p)) = alertContainer p
  ∧ timers (pageOf (dropEvent [] p)) = timers p
  ∧ cvFileInput (pageOf (dropEvent [] p)) = cvFileInput p
  ∧ statusText (pageOf (dropEvent [] p)) = statusText p
  ∧ submitted (pageOf (dropEvent [] p)) = submitted p.
Proof.
  intros Hz Hi.
  assert (dropEvent [] p
          = Ok (set_uploadZone
                  (Some (mkZone (ClassList.remove dragover (zoneClasses z))
                           (uploadText z))) p)) as Heq.
  { unfold dropEvent, uploadListeners, dropListener, withZoneClasses.
    by rewrite Hz, Hi. }
  rewrite Heq. split_and!; try reflexivity.
  - apply has_remove.
  - unfold statusText. simpl. by rewrite Hz.
Qed.

Lemma empty_drop_only_clears_dragover_witness :
  dropEvent [] fullPage
  = Ok (set_uploadZone
          (Some (mkZone (ClassList.remove dragover [Js.lit "upload-zone"; dragover])
                   (Some (Js.lit "Drop your CV here")))) fullPage)
  ∧ ClassList.has dragover
      (ClassList.remove dragover [Js.lit "upload-zone"; dragover]) = false
  ∧ alertContainer (pageOf (dropEvent [] fullPage)) = Some []
  ∧ timers (pageOf (dropEvent [] fullPage)) = []
  ∧ cvFileInput (pageOf (dropEvent [] fullPage)) = Some []
  ∧ statusText (pageOf (dropEvent [] fullPage)) = Some (Js.lit "Drop your CV here")
  ∧ submitted (pageOf (dropEvent [] fullPage)) = [].
Proof.
  apply (empty_drop_only_clears_dragover fullPage
           (mkZone [Js.lit "upload-zone"; dragover]
              (Some (Js.lit "Drop your CV here"))) []); reflexivity.
Defined.

(** ** The theme toggle at work *)

(** C7: a click on the toggle shows the opposite of the theme on display
    and stores it, so the stored theme is the displayed one after every
    click; from [light] or [dark], two clicks give back the theme on
    display before them. *)
Theorem theme_toggle_involutive (p : Page) (icon : list N) :
  themeToggle p = Some icon →
  dataTheme (themeClick p) = Some (nextTheme (dataTheme p))
  ∧ localStorage (themeClick p) !! theme_key = dataTheme (themeClick p)
  ∧ (dataTheme p = Some light → dataTheme (themeClick p) = Some dark)
  ∧ (dataTheme p = Some dark → dataTheme (themeClick p) = Some light)
  ∧ (dataTheme p = Some light ∨ dataTheme p = Some dark →
     dataTheme (themeClick (themeClick p)) = dataTheme p
     ∧ localStorage (themeClick (themeClick p)) !! theme_key = dataTheme p).
Proof.
  intros Ht.
  assert (∀ q i, themeToggle q = Some i →
            dataTheme (themeClick q) = Some (nextTheme (dataTheme q))
            ∧ localStorage (themeClick q) !! theme_key
              = Some (nextTheme (dataTheme q))
            ∧ ∃ j, themeToggle (themeClick q) = Some j) as Hstep.
  { intros q i Hq. unfold themeClick, themeClickListener, updateThemeIcon.
    rewrite Hq. simpl. rewrite Hq. simpl.
    split_and!; [reflexivity | apply lookup_insert_eq | by eexists]. }
  destruct (Hstep p icon Ht) as (Hd & Hs & j & Hj).
  destruct (Hstep _ j Hj) as (Hd2 & Hs2 & _).
  split_and!.
  - exact Hd.
  - by rewrite Hs, Hd.
  - intros Hl. rewrite Hd, Hl. reflexivity.
  - intros Hk. rewrite Hd, Hk. reflexivity.
  - intros Hcur. rewrite Hs2, Hd2, Hd.
    destruct Hcur as [Hc | Hc]; rewrite Hc; split; reflexivity.
Qed.

Lemma theme_toggle_involutive_witness :
  dataTheme (themeClick fullPage) = Some (nextTheme (dataTheme fullPage))
  ∧ localStorage (themeClick fullPage) !! theme_key
    = dataTheme (themeClick fullPage)
  ∧ (dataTheme fullPage = Some light → dataTheme (themeClick fullPage) = Some dark)
  ∧ (dataTheme fullPage = Some dark → dataTheme (themeClick fullPage) = Some light)
  ∧ (dataTheme fullPage = Some light ∨ dataTheme fullPage = Some dark →
     dataTheme (themeClick (themeClick fullPage)) = dataTheme fullPage
     ∧ localStorage (themeClick (themeClick fullPage)) !! theme_key
       = dataTheme fullPage).
Proof.
  apply (theme_toggle_involutive fullPage moon_icon). reflexivity.
Defined.

(** A stored value outside the two themes is displayed as it is by
    [initThemeToggle]; the first click then gives [dark], and two clicks
    do not give the stored value back. *)
Example toggle_from_stored_blue :
  let p := initThemeToggle
             (set_localStorage {[ theme_key := Js.lit "blue" ]} fullPage) in
  dataTheme p = Some (Js.lit "blue")
  ∧ dataTheme (themeClick p) = Some dark
  ∧ dataTheme (themeClick (themeClick p)) = Some light.
Proof. split_and!; reflexivity. Qed.

Example toggle_from_light :
  dataTheme (themeClick fullPage) = Some dark
  ∧ themeToggle (themeClick fullPage) = Some sun_icon
  ∧ dataTheme (themeClick (themeClick fullPage)) = Some light.
Proof. split_and!; reflexivity. Qed.

(** ** The sidebar at work *)

(** The click listener of the document on its own, at a width of at most
    992.
    A click whose target is outside the sidebar and outside its toggle
    button takes the class [show] off the sidebar; with the target inside
    the sidebar or inside the button the listener leaves the page as it
    is. *)
Theorem outside_click_closes_sidebar
    (p : Page) (btn : Element) (sb : Sidebar) (target : nat) :
  sidebarToggle p = Some btn →
  sidebar p = Some sb →
  innerWidth p <= 992 →
  (contains (sidebarTree sb) target = false →
   contains btn target = false →
   documentClick target p
   = set_sidebar
       (Some (mkSidebar (ClassList.remove show (sidebarClasses sb))
                (sidebarTree sb))) p
   ∧ sidebarShown (documentClick target p) = false)
  ∧ (contains (sidebarTree sb) target = true ∨ contains btn target = true →
     documentClick target p = p).
Proof.
  intros Hb Hs Hw. unfold documentClick. rewrite Hb, Hs.
  apply Z.leb_le in Hw. rewrite Hw. split.
  - intros -> ->. simpl. unfold withSidebarClasses. rewrite Hs.
    split; [reflexivity |]. unfold sidebarShown. simpl. apply has_remove.
  - intros [-> | ->]; simpl; [reflexivity |].
    by rewrite andb_false_r.
Qed.

Lemma outside_click_closes_sidebar_witness :
  (contains (Elem 3 [Elem 4 []; Elem 5 []]) 9 = false →
   contains (Elem 1 [Elem 2 []]) 9 = false →
   documentClick 9 fullPage
   = set_sidebar
       (Some (mkSidebar (ClassList.remove show [Js.lit "sidebar"; show])
                (Elem 3 [Elem 4 []; Elem 5 []]))) fullPage
   ∧ sidebarShown (documentClick 9 fullPage) = false)
  ∧ (contains (Elem 3 [Elem 4 []; Elem 5 []]) 9 = true
     ∨ contains (Elem 1 [Elem 2 []]) 9 = true →
     documentClick 9 fullPage = fullPage).
Proof.
  apply (outside_click_closes_sidebar fullPage (Elem 1 [Elem 2 []])
           (mkSidebar [Js.lit "sidebar"; show] (Elem 3 [Elem 4 []; Elem 5 []]))
           9); [reflexivity | reflexivity | simpl; lia].
Defined.

Example click_outside : sidebarShown (documentClick 9 fullPage) = false.
Proof. reflexivity. Qed.

Example click_inside_sidebar : documentClick 5 fullPage = fullPage.
Proof. reflexivity. Qed.

(** Above the breakpoint the listener does nothing. *)
Lemma wide_click_keeps_sidebar (p : Page) (target : nat) :
  992 < innerWidth p → documentClick target p = p.
Proof.
  intros Hw. unfold documentClick.
  destruct (sidebarToggle p), (sidebar p); try reflexivity.
  apply Z.leb_gt in Hw. by rewrite Hw.
Qed.

(** A click inside the toggle button reaches the button's own listener,
    which toggles [show]; the document's listener then leaves the class
    list as the button's listener set it. *)
Lemma button_click_toggles
    (p : Page) (btn : Element) (sb : Sidebar) (target : nat) :
  sidebarToggle p = Some btn →
  sidebar p = Some sb →
  contains btn target = true →
  sidebarClickEvent target p
  = set_sidebar
      (Some (mkSidebar (ClassList.toggle show (sidebarClasses sb))
               (sidebarTree sb))) p.
Proof.
  intros Hb Hs Hc. unfold sidebarClickEvent. rewrite Hb, Hs, Hc.
  unfold sidebarButtonListener, withSidebarClasses, documentClick.
  rewrite Hs. simpl. rewrite Hb, Hc. simpl. by rewrite andb_false_r.
Qed.

(** ** Theme toggle: load, persistence, frame *)

Lemma nextTheme_cases (current : option (list N)) :
  (current = Some dark ∧ nextTheme current = light)
  ∨ (current ≠ Some dark ∧ nextTheme current = dark).
Proof. unfold nextTheme. case_decide; [left | right]; done. Qed.

Lemma nextTheme_twice (current : option (list N)) :
  nextTheme (Some (nextTheme (Some (nextTheme current)))) = nextTheme current.
Proof.
  destruct (nextTheme_cases current) as [[_ ->] | [_ ->]]; reflexivity.
Qed.

Lemma themeClick_present (p : Page) (icon : list N) :
  themeToggle p = Some icon →
  themeClick p
  = set_themeToggle
      (Some (if decide (nextTheme (dataTheme p) = dark)
             then sun_icon else moon_icon))
      (set_localStorage (<[theme_key := nextTheme (dataTheme p)]> (localStorage p))
         (set_dataTheme (Some (nextTheme (dataTheme p))) p)).
Proof.
  intros H. unfold themeClick, themeClickListener, updateThemeIcon.
  rewrite H. simpl. by rewrite H.
Qed.

Lemma savedTheme_stored (p : Page) (c : N) (r : list N) :
  localStorage p !! theme_key = Some (c :: r) → savedTheme p = c :: r.
Proof. intros H. unfold savedTheme. by rewrite H. Qed.

(** X1: the choice survives a reload.  When a page is loaded with the
    storage a click left behind, [initThemeToggle] displays the theme that
    click displayed, with the same icon. *)
Theorem theme_survives_reload (p p' : Page) (icon icon' : list N) :
  themeToggle p = Some icon →
  themeToggle p' = Some icon' →
  localStorage p' = localStorage (themeClick p) →
  dataTheme (initThemeToggle p') = dataTheme (themeClick p)
  ∧ themeToggle (initThemeToggle p') = themeToggle (themeClick p).
Proof.
  intros Ht Ht' Hs. rewrite (themeClick_present _ _ Ht) in *. simpl in *.
  assert (savedTheme p' = nextTheme (dataTheme p)) as Hsaved.
  { unfold savedTheme. rewrite Hs, lookup_insert_eq.
    destruct (nextTheme_cases (dataTheme p)) as [[_ ->] | [_ ->]]; reflexivity. }
  unfold initThemeToggle, updateThemeIcon. rewrite Ht'. simpl. rewrite Ht'.
  simpl. by rewrite Hsaved.
Qed.

Lemma theme_survives_reload_witness :
  dataTheme (initThemeToggle (set_localStorage (localStorage (themeClick fullPage)) fullPage))
  = dataTheme (themeClick fullPage)
  ∧ themeToggle (initThemeToggle (set_localStorage (localStorage (themeClick fullPage)) fullPage))
    = themeToggle (themeClick fullPage).
Proof.
  apply (theme_survives_reload fullPage
           (set_localStorage (localStorage (themeClick fullPage)) fullPage)
           moon_icon moon_icon); reflexivity.
Defined.

(** X2: the icon follows the theme on display.  After [initThemeToggle]
    and after every click the toggle shows the sun exactly when the
    displayed theme is [dark], and the moon otherwise. *)
Theorem icon_follows_theme (p : Page) (icon : list N) :
  themeToggle p = Some icon →
  themeToggle (initThemeToggle p)
  = Some (if decide (dataTheme (initThemeToggle p) = Some dark)
          then sun_icon else moon_icon)
  ∧ themeToggle (themeClick p)
    = Some (if decide (dataTheme (themeClick p) = Some dark)
            then sun_icon else moon_icon).
Proof.
  intros Ht. split.
  - unfold initThemeToggle, updateThemeIcon. rewrite Ht. simpl. rewrite Ht.
    simpl. f_equal. repeat case_decide; congruence.
  - rewrite (themeClick_present _ _ Ht). simpl. f_equal.
    repeat case_decide; congruence.
Qed.

Lemma icon_follows_theme_witness :
  themeToggle (initThemeToggle fullPage)
  = Some (if decide (dataTheme (initThemeToggle fullPage) = Some dark)
          then sun_icon else moon_icon)
  ∧ themeToggle (themeClick fullPage)
    = Some (if decide (dataTheme (themeClick fullPage) = Some dark)
            then sun_icon else moon_icon).
Proof. apply (icon_follows_theme fullPage moon_icon). reflexivity. Defined.

(** X3: whatever the root's [data-theme] was, unset or a value outside the
    two themes included, one click leaves [light] or [dark] on display, and
    from then on clicking is an involution: the page after three clicks is
    the page after one. *)
Theorem theme_click_normalises (p : Page) (icon : list N) :
  themeToggle p = Some icon →
  (dataTheme (themeClick p) = Some light ∨ dataTheme (themeClick p) = Some dark)
  ∧ themeClick (themeClick (themeClick p)) = themeClick p.
Proof.
  intros Ht.
  assert (∀ q i, themeToggle q = Some i → ∃ j, themeToggle (themeClick q) = Some j)
    as Hkeep.
  { intros q i Hq. rewrite (themeClick_present _ _ Hq). by eexists. }
  destruct (Hkeep _ _ Ht) as [j Hj]. destruct (Hkeep _ _ Hj) as [k Hk].
  split.
  - rewrite (themeClick_present _ _ Ht). page_cbn.
    destruct (nextTheme_cases (dataTheme p)) as [[_ ->] | [_ ->]]; auto.
  - rewrite (themeClick_present _ _ Hk), (themeClick_present _ _ Hj).
    rewrite (themeClick_present _ _ Ht). page_cbn.
    rewrite nextTheme_twice. by rewrite !insert_insert_eq.
Qed.

Lemma theme_click_normalises_witness :
  (dataTheme (themeClick fullPage) = Some light
   ∨ dataTheme (themeClick fullPage) = Some dark)
  ∧ themeClick (themeClick (themeClick fullPage)) = themeClick fullPage.
Proof. apply (theme_click_normalises fullPage moon_icon). reflexivity. Defined.

(** X4: what a load displays.  With the toggle on the page,
    [initThemeToggle] displays [light] when the key is missing or holds the
    empty string, and the stored string itself otherwise, whatever it is;
    it never writes to the storage, and running it again changes nothing. *)
Theorem load_displays_stored (p : Page) (icon : list N) :
  themeToggle p = Some icon →
  localStorage (initThemeToggle p) = localStorage p
  ∧ (localStorage p !! theme_key = None ∨ localStorage p !! theme_key = Some [] →
     dataTheme (initThemeToggle p) = Some light)
  ∧ (∀ c r, localStorage p !! theme_key = Some (c :: r) →
            dataTheme (initThemeToggle p) = Some (c :: r))
  ∧ initThemeToggle (initThemeToggle p) = initThemeToggle p.
Proof.
  intros Ht.
  assert (initThemeToggle p
          = set_themeToggle
              (Some (if decide (savedTheme p = dark) then sun_icon else moon_icon))
              (set_dataTheme (Some (savedTheme p)) p)) as Hinit.
  { unfold initThemeToggle, updateThemeIcon. rewrite Ht. simpl. by rewrite Ht. }
  split_and!.
  - by rewrite Hinit.
  - intros H. rewrite Hinit. simpl. unfold savedTheme.
    by destruct H as [-> | ->].
  - intros c r H. rewrite Hinit. simpl. by rewrite (savedTheme_stored _ _ _ H).
  - rewrite Hinit at 1. unfold initThemeToggle at 1, updateThemeIcon. simpl.
    rewrite Hinit. reflexivity.
Qed.

Lemma load_displays_stored_witness :
  localStorage (initThemeToggle fullPage) = localStorage fullPage
  ∧ (localStorage fullPage !! theme_key = None
     ∨ localStorage fullPage !! theme_key = Some [] →
     dataTheme (initThemeToggle fullPage) = Some light)
  ∧ (∀ c r, localStorage fullPage !! theme_key = Some (c :: r) →
            dataTheme (initThemeToggle fullPage) = Some (c :: r))
  ∧ initThemeToggle (initThemeToggle fullPage) = initThemeToggle fullPage.
Proof. apply (load_displays_stored fullPage moon_icon). reflexivity. Defined.

(** ** Sidebar: the button, and what the document listener never does *)

Lemma has_true (c : list N) (l : list (list N)) :
  ClassList.has c l = true ↔ c ∈ l.
Proof. unfold ClassList.has. apply bool_decide_eq_true. Qed.

Lemma has_ext (c : list N) (l k : list (list N)) :
  (c ∈ l ↔ c ∈ k) → ClassList.has c l = ClassList.has c k.
Proof.
  intros H. unfold ClassList.has. apply bool_decide_ext, H.
Qed.

Lemma has_remove_other (c d : list N) (l : list (list N)) :
  d ≠ c → ClassList.has d (ClassList.remove c l) = ClassList.has d l.
Proof.
  intros H. apply has_ext. unfold ClassList.remove.
  rewrite list_elem_of_filter. tauto.
Qed.

Lemma has_toggle (c : list N) (l : list (list N)) :
  ClassList.has c (ClassList.toggle c l) = negb (ClassList.has c l).
Proof.
  unfold ClassList.toggle. destruct (ClassList.has c l) eqn:E; simpl.
  - apply has_remove.
  - apply has_true, elem_of_app. right. apply list_elem_of_here.
Qed.

Lemma has_toggle_other (c d : list N) (l : list (list N)) :
  d ≠ c → ClassList.has d (ClassList.toggle c l) = ClassList.has d l.
Proof.
  intros H. unfold ClassList.toggle. destruct (ClassList.has c l).
  - by apply has_remove_other.
  - apply has_ext. rewrite elem_of_app, elem_of_cons, elem_of_nil. tauto.
Qed.

(** X6: a click inside the toggle button, seen through both listeners it
    reaches, flips the sidebar: shown becomes hidden and hidden becomes
    shown, at every width, and every other class of the sidebar stays.
    The document listener does not undo the opening, since the target is
    inside the button. *)
Theorem button_click_flips_sidebar
    (p : Page) (btn : Element) (sb : Sidebar) (target : nat) :
  sidebarToggle p = Some btn →
  sidebar p = Some sb →
  contains btn target = true →
  sidebarShown (sidebarClickEvent target p) = negb (sidebarShown p)
  ∧ (∀ c, c ≠ show →
       sidebarHas c (sidebarClickEvent target p) = sidebarHas c p).
Proof.
  intros Hb Hs Hc. rewrite (button_click_toggles _ _ _ _ Hb Hs Hc).
  unfold sidebarShown, sidebarHas. simpl. rewrite Hs. split.
  - apply has_toggle.
  - intros c Hne. by apply has_toggle_other.
Qed.

Lemma button_click_flips_sidebar_witness :
  sidebarShown (sidebarClickEvent 2 fullPage) = negb (sidebarShown fullPage)
  ∧ (∀ c, c ≠ show →
       sidebarHas c (sidebarClickEvent 2 fullPage) = sidebarHas c fullPage).
Proof.
  apply (button_click_flips_sidebar fullPage (Elem 1 [Elem 2 []])
           (mkSidebar [Js.lit "sidebar"; show] (Elem 3 [Elem 4 []; Elem 5 []]))
           2); reflexivity.
Defined.

(** X7: the document listener only ever closes.  For every click, at
    every width, a sidebar that is shown afterwards was shown before, the
    classes other than [show] are kept, and the subtrees of the sidebar and
    of the button are the same; above a width of 992 the listener changes
    nothing at all. *)
Theorem document_click_never_opens (p : Page) (target : nat) :
  (sidebarShown (documentClick target p) = true → sidebarShown p = true)
  ∧ (∀ c, c ≠ show → sidebarHas c (documentClick target p) = sidebarHas c p)
  ∧ sidebarTree <$> sidebar (documentClick target p) = sidebarTree <$> sidebar p
  ∧ sidebarToggle (documentClick target p) = sidebarToggle p
  ∧ (992 < innerWidth p → documentClick target p = p).
Proof.
  assert (documentClick target p = p
          ∨ ∃ sb, sidebar p = Some sb
                  ∧ documentClick target p
                    = set_sidebar
                        (Some (mkSidebar (ClassList.remove show (sidebarClasses sb))
                                 (sidebarTree sb))) p)
    as [-> | (sb & Hs & Hclick)].
  { unfold documentClick, withSidebarClasses.
    destruct (sidebarToggle p), (sidebar p) as [sb |]; auto.
    match goal with |- context [if ?b then _ else _] => destruct b end; eauto. }
  - by split_and!.
  - split_and!.
    + rewrite Hclick. unfold sidebarShown. page_cbn. cbn [sidebarClasses].
      by rewrite has_remove.
    + intros c Hne. rewrite Hclick. unfold sidebarHas. page_cbn.
      rewrite Hs. cbn [sidebarClasses]. by apply has_remove_other.
    + rewrite Hclick. page_cbn. by rewrite Hs.
    + by rewrite Hclick.
    + apply wide_click_keeps_sidebar.
Qed.

(** ** Upload zone: drag feedback, faults, the check *)

Lemma uploadListeners_elements (p : Page) :
  uploadListeners p = true →
  ∃ z fs, uploadZone p = Some z ∧ cvFileInput p = Some fs.
Proof.
  unfold uploadListeners.
  destruct (uploadZone p), (cvFileInput p); try discriminate; eauto.
Qed.

Lemma remove_absent (c : list N) (l : list (list N)) :
  c ∉ l → ClassList.remove c l = l.
Proof.
  intros H. unfold ClassList.remove. induction l as [| x r IH]; [reflexivity |].
  rewrite filter_cons_True.
  - f_equal. apply IH. intros Hr. apply H. by apply list_elem_of_further.
  - intros ->. apply H, list_elem_of_here.
Qed.

Lemma has_add (c : list N) (l : list (list N)) :
  ClassList.has c (ClassList.add c l) = true.
Proof.
  unfold ClassList.add. destruct (ClassList.has c l) eqn:E; [exact E |].
  apply has_true, elem_of_app. right. apply list_elem_of_here.
Qed.

Lemma add_add (c : list N) (l : list (list N)) :
  ClassList.add c (ClassList.add c l) = ClassList.add c l.
Proof.
  unfold ClassList.add at 1. by rewrite has_add.
Qed.

Lemma remove_add (c : list N) (l : list (list N)) :
  c ∉ l → ClassList.remove c (ClassList.add c l) = l.
Proof.
  intros H. unfold ClassList.add.
  destruct (ClassList.has c l) eqn:E; [by apply has_true in E |].
  unfold ClassList.remove. rewrite filter_app.
  fold (ClassList.remove c l). rewrite (remove_absent _ _ H).
  rewrite filter_cons_False by (intros Hne; by apply Hne).
  by rewrite filter_nil, app_nil_r.
Qed.

(** X8: drag feedback.  With the zone and the input on the page, a
    [dragover] marks the zone with the class [dragover], a second one
    changes nothing more, a [dragleave] takes the mark off, and a
    [dragover] followed by a [dragleave] gives back the very page there
    was, when the zone was not marked to begin with. *)
Theorem drag_marks_and_unmarks (p : Page) :
  uploadListeners p = true →
  zoneHas dragover (zoneDragover p) = true
  ∧ zoneDragover (zoneDragover p) = zoneDragover p
  ∧ zoneHas dragover (zoneDragleave p) = false
  ∧ (zoneHas dragover p = false → zoneDragleave (zoneDragover p) = p).
Proof.
  intros Hl. destruct (uploadListeners_elements _ Hl) as (z & fs & Hz & Hi).
  assert (∀ f, uploadListeners (withZoneClasses f p) = true) as Hkeep.
  { intros f. unfold uploadListeners, withZoneClasses. rewrite Hz. page_cbn.
    by rewrite Hi. }
  unfold zoneDragover, zoneDragleave. rewrite Hl, !Hkeep.
  unfold zoneHas, withZoneClasses. rewrite Hz. page_cbn. cbn [zoneClasses uploadText].
  split_and!.
  - apply has_add.
  - by rewrite add_add.
  - apply has_remove.
  - intros Hno. rewrite remove_add.
    + destruct p, z. cbn in Hz. by subst.
    + intros Hin. apply has_true in Hin. congruence.
Qed.

Lemma drag_marks_and_unmarks_witness :
  zoneHas dragover (zoneDragover fullPage) = true
  ∧ zoneDragover (zoneDragover fullPage) = zoneDragover fullPage
  ∧ zoneHas dragover (zoneDragleave fullPage) = false
  ∧ (zoneHas dragover fullPage = false →
     zoneDragleave (zoneDragover fullPage) = fullPage).
Proof. apply (drag_marks_and_unmarks fullPage). reflexivity. Defined.

Lemma zoneHas_updateFileName (c nm : list N) (p : Page) :
  zoneHas c (updateFileName nm p) = zoneHas c p.
Proof.
  unfold zoneHas, updateFileName. destruct (uploadZone p) as [z |] eqn:Hz.
  - destruct (uploadText z); page_cbn; by rewrite ?Hz.
  - by rewrite Hz.
Qed.

Lemma zoneHas_submitForm (c : list N) (p : Page) :
  zoneHas c (pageOf (submitForm p)) = zoneHas c p.
Proof. unfold submitForm. by destruct (uploadForm p). Qed.

Lemma zoneHas_showAlert (c message type : list N) (p : Page) :
  zoneHas c (showAlert message type p) = zoneHas c p.
Proof. unfold showAlert. by destruct (alertContainer p). Qed.

Lemma zoneHas_afterDropStart (p : Page) :
  zoneHas dragover (afterDropStart p) = false.
Proof.
  unfold zoneHas, afterDropStart, withZoneClasses.
  destruct (uploadZone p) as [z |] eqn:Hz; page_cbn; [| by rewrite Hz].
  apply has_remove.
Qed.

(** X9: no drop leaves the zone marked.  Whatever is dropped, and whether
    the drop is empty, rejected, accepted or ends in the fault of the
    missing form, the zone does not carry the class [dragover]
    afterwards. *)
Theorem drop_always_unmarks (p : Page) (files : list File) :
  uploadListeners p = true →
  zoneHas dragover (pageOf (dropEvent files p)) = false.
Proof.
  intros Hl. unfold dropEvent, dropListener. rewrite Hl.
  fold (afterDropStart p). destruct files as [| file rest].
  - apply zoneHas_afterDropStart.
  - destruct (notAllowed (name file)).
    + cbn [pageOf]. rewrite zoneHas_showAlert. apply zoneHas_afterDropStart.
    + rewrite zoneHas_submitForm, zoneHas_updateFileName.
      apply zoneHas_afterDropStart.
Qed.

Lemma drop_always_unmarks_witness :
  zoneHas dragover (pageOf (dropEvent [cv_pdf] pageWithoutForm)) = false.
Proof. apply (drop_always_unmarks pageWithoutForm [cv_pdf]). reflexivity. Defined.

(** X10: when a listener of the upload zone throws.  A drop throws
    exactly when the listeners are registered, the form is missing, and
    the first dropped file passes the check; a picker selection throws
    exactly when the listeners are registered, the form is missing and the
    selection is not empty.  So an empty or rejected drop and an empty
    selection never throw, with or without the form. *)
Theorem upload_throws_iff (p : Page) (files : list File) :
  (thrown (dropEvent files p) = true
   ↔ uploadListeners p = true ∧ uploadForm p = false
     ∧ ∃ file rest, files = file :: rest ∧ notAllowed (name file) = false)
  ∧ (thrown (pick files p) = true
     ↔ uploadListeners p = true ∧ uploadForm p = false ∧ files ≠ []).
Proof.
  assert (∀ q, thrown (submitForm q) = negb (uploadForm q)) as Hsub.
  { intros q. unfold submitForm. by destruct (uploadForm q). }
  split.
  - unfold dropEvent, dropListener. destruct (uploadListeners p) eqn:Hl.
    + destruct files as [| file rest].
      * cbn [thrown]. split; [discriminate |].
        intros (_ & _ & f & r & Hf & _). discriminate.
      * destruct (notAllowed (name file)) eqn:Hn.
        -- cbn [thrown]. split; [discriminate |].
           intros (_ & _ & f & r & [= <- _] & Hn'). congruence.
        -- rewrite Hsub, uploadForm_updateFileName. page_cbn.
           fold (afterDropStart p). rewrite uploadForm_afterDropStart.
           destruct (uploadForm p); cbn [negb].
           ++ split; [discriminate | intros (_ & H & _); discriminate].
           ++ split; [intros _ | done]. split_and!; try done.
              by exists file, rest.
    + cbn [thrown]. split; [discriminate | intros (H & _); discriminate].
  - destruct (uploadListeners p) eqn:Hl.
    + destruct files as [| file rest].
      * unfold pick, changeEvent, changeListener.
        destruct (uploadListeners_elements _ Hl) as (z & fs & Hz & Hi).
        rewrite Hi. unfold uploadListeners. page_cbn. rewrite Hz.
        cbn [thrown]. split; [discriminate | intros (_ & _ & H); by destruct H].
      * rewrite (pick_nonempty _ _ _ Hl), Hsub, uploadForm_updateFileName.
        page_cbn. destruct (uploadForm p); cbn [negb].
        -- split; [discriminate | intros (_ & H & _); discriminate].
        -- split; [intros _ | done]. by split_and!.
    + split; [| intros (H & _); discriminate].
      unfold pick, changeEvent, uploadListeners in *.
      destruct (cvFileInput p); [| discriminate]. page_cbn.
      destruct (uploadZone p); discriminate.
Qed.

(** X11: a rejection nobody sees.  On a page without the alert container
    a rejected drop does what an empty drop does: the mark comes off the
    zone and nothing else happens, no alert, no timer, no change to the
    input, no submission. *)
Theorem rejected_drop_without_container
    (p : Page) (file : File) (rest : list File) :
  uploadListeners p = true →
  alertContainer p = None →
  notAllowed (name file) = true →
  dropEvent (file :: rest) p = dropEvent [] p
  ∧ dropEvent (file :: rest) p = Ok (afterDropStart p)
  ∧ timers (afterDropStart p) = timers p
  ∧ cvFileInput (afterDropStart p) = cvFileInput p
  ∧ submitted (afterDropStart p) = submitted p.
Proof.
  intros Hl Hc Hn.
  assert (showAlert rejectMessage danger (afterDropStart p) = afterDropStart p)
    as Hshow.
  { unfold showAlert, afterDropStart, withZoneClasses.
    destruct (uploadZone p); page_cbn; by rewrite Hc. }
  rewrite (dropEvent_rejected _ _ _ Hl Hn), Hshow.
  unfold dropEvent, dropListener. rewrite Hl. fold (afterDropStart p).
  split_and!; try reflexivity;
    unfold afterDropStart, withZoneClasses; by destruct (uploadZone p).
Qed.

Lemma rejected_drop_without_container_witness :
  dropEvent [setup_exe] pageWithoutAlerts = dropEvent [] pageWithoutAlerts
  ∧ dropEvent [setup_exe] pageWithoutAlerts = Ok (afterDropStart pageWithoutAlerts)
  ∧ timers (afterDropStart pageWithoutAlerts) = timers pageWithoutAlerts
  ∧ cvFileInput (afterDropStart pageWithoutAlerts) = cvFileInput pageWithoutAlerts
  ∧ submitted (afterDropStart pageWithoutAlerts) = submitted pageWithoutAlerts.
Proof.
  apply (rejected_drop_without_container pageWithoutAlerts setup_exe []);
    reflexivity.
Defined.

Lemma toLowerCase_length_without_dotted_I (s : list N) :
  304%N ∉ s → length (Js.toLowerCase s) = length s.
Proof.
  induction s as [| c r IH]; [reflexivity |]. intros H.
  change (Js.toLowerCase (c :: r))
    with (Js.toLowerCaseUnit c ++ Js.toLowerCase r).
  rewrite length_app, IH by (intros Hr; apply H; by apply list_elem_of_further).
  assert (c ≠ 304%N) as Hc by (intros ->; apply H, list_elem_of_here).
  enough (length (Js.toLowerCaseUnit c) = 1%nat) as Hone
      by (rewrite Hone; reflexivity).
  unfold Js.toLowerCaseUnit.
  repeat (match goal with
          | |- context [if ?b then _ else _] => destruct b eqn:?
          end); try reflexivity.
  exfalso. apply Hc. by apply N.eqb_eq.
Qed.

(** X12: the check is exact on names without U+0130.  For a dropped file
    whose name holds no capital I with dot above, on a page with the zone,
    the input and the form, the drop sends the form with the dropped files
    exactly when the extension of the name, from its last full stop and in
    lower case, is on the allow-list. *)
Theorem drop_exact_without_dotted_I
    (p : Page) (z : Zone) (fs : list File) (file : File) (rest : list File) :
  uploadZone p = Some z →
  cvFileInput p = Some fs →
  uploadForm p = true →
  304%N ∉ name file →
  extensionAllowed (name file)
  ↔ ∃ q, dropEvent (file :: rest) p = Ok q
         ∧ submitted q = (file :: rest) :: submitted p.
Proof.
  intros Hz Hi Hf Hno. split.
  - intros Hext.
    rewrite (drop_accepts _ _ _ _ _ Hz Hi Hf
               (extensionAllowed_accepted _
                  (toLowerCase_length_without_dotted_I _ Hno) Hext)).
    by eexists.
  - intros (q & Hq & Hsent). apply accepted_extensionAllowed.
    destruct (notAllowed (name file)) eqn:Hn; [| reflexivity]. exfalso.
    rewrite dropEvent_rejected in Hq;
      [| unfold uploadListeners; by rewrite Hz, Hi | exact Hn].
    injection Hq as <-. apply (f_equal length) in Hsent.
    unfold showAlert, afterDropStart, withZoneClasses in Hsent.
    rewrite Hz in Hsent. page_cbn_in Hsent.
    destruct (alertContainer p); cbn in Hsent; lia.
Qed.

Lemma cv_pdf_without_dotted_I : 304%N ∉ name cv_pdf.
Proof.
  intros H. repeat (apply elem_of_cons in H as [H | H]; [discriminate |]).
  by apply elem_of_nil in H.
Defined.

Lemma drop_exact_without_dotted_I_witness :
  extensionAllowed (name cv_pdf)
  ↔ ∃ q, dropEvent [cv_pdf] fullPage = Ok q ∧ submitted q = [[cv_pdf]].
Proof.
  apply (drop_exact_without_dotted_I fullPage
           (mkZone [Js.lit "upload-zone"; dragover]
              (Some (Js.lit "Drop your CV here")))
           [] cv_pdf []);
    [reflexivity | reflexivity | reflexivity | exact cv_pdf_without_dotted_I].
Defined.

(** X13: the status text.  [updateFileName] puts "Uploading: " and the
    name in the text element of the zone and creates no text where the
    zone has no such element; the last name written is the one shown, so
    writing the same name twice is writing it once. *)
Theorem updateFileName_last_wins (p : Page) (a b : list N) :
  statusText (updateFileName a p)
  = (λ _, Js.lit "Uploading: " ++ a) <$> statusText p
  ∧ updateFileName b (updateFileName a p) = updateFileName b p
  ∧ updateFileName a (updateFileName a p) = updateFileName a p.
Proof.
  assert (∀ x y, updateFileName y (updateFileName x p) = updateFileName y p)
    as Hlast.
  { intros x y. unfold updateFileName.
    destruct (uploadZone p) as [[cls [t |]] |] eqn:Hz; page_cbn;
      cbn [uploadText zoneClasses]; rewrite ?Hz; reflexivity. }
  split_and!; [| apply Hlast | apply Hlast].
  unfold statusText, updateFileName.
  destruct (uploadZone p) as [[cls [t |]] |] eqn:Hz; page_cbn;
    cbn [uploadText]; rewrite ?Hz; reflexivity.
Qed.

(** X14: what the upload listeners leave alone.  A drop and a picker
    selection, whatever their outcome, do not touch the displayed theme,
    the storage, the toggle's icon or the sidebar, and they send the form
    at most once. *)
Theorem upload_frame (p : Page) (files : list File) :
  (∀ q, q = pageOf (dropEvent files p) ∨ q = pageOf (pick files p) →
        dataTheme q = dataTheme p
        ∧ localStorage q = localStorage p
        ∧ themeToggle q = themeToggle p
        ∧ sidebar q = sidebar p
        ∧ (submitted q = submitted p
           ∨ submitted q = files :: submitted p)).
Proof.
  assert (∀ r, dataTheme (pageOf (submitForm r)) = dataTheme r
               ∧ localStorage (pageOf (submitForm r)) = localStorage r
               ∧ themeToggle (pageOf (submitForm r)) = themeToggle r
               ∧ sidebar (pageOf (submitForm r)) = sidebar r
               ∧ (submitted (pageOf (submitForm r)) = submitted r
                  ∨ submitted (pageOf (submitForm r))
                    = default [] (cvFileInput r) :: submitted r)) as Hsub.
  { intros r. unfold submitForm. destruct (uploadForm r); cbn [pageOf];
      page_cbn; split_and!; auto. }
  assert (∀ nm r, dataTheme (updateFileName nm r) = dataTheme r
                  ∧ localStorage (updateFileName nm r) = localStorage r
                  ∧ themeToggle (updateFileName nm r) = themeToggle r
                  ∧ sidebar (updateFileName nm r) = sidebar r
                  ∧ submitted (updateFileName nm r) = submitted r
                  ∧ cvFileInput (updateFileName nm r) = cvFileInput r) as Hupd.
  { intros nm r. unfold updateFileName.
    destruct (uploadZone r) as [[cls [t |]] |]; by split_and!. }
  assert (dataTheme (afterDropStart p) = dataTheme p
          ∧ localStorage (afterDropStart p) = localStorage p
          ∧ themeToggle (afterDropStart p) = themeToggle p
          ∧ sidebar (afterDropStart p) = sidebar p
          ∧ submitted (afterDropStart p) = submitted p
          ∧ alertContainer (afterDropStart p) = alertContainer p) as Hstart.
  { unfold afterDropStart, withZoneClasses.
    destruct (uploadZone p); by split_and!. }
  destruct Hstart as (Hs1 & Hs2 & Hs3 & Hs4 & Hs5 & Hs6).
  intros q [-> | ->].
  - unfold dropEvent, dropListener. fold (afterDropStart p).
    destruct (uploadListeners p); [| by split_and!; auto].
    destruct files as [| file rest]; [cbn [pageOf]; by split_and!; auto |].
    destruct (notAllowed (name file)).
    + cbn [pageOf]. unfold showAlert.
      destruct (alertContainer (afterDropStart p)); page_cbn;
        by split_and!; auto.
    + set (r := set_cvFileInput _ _).
      destruct (Hsub (updateFileName (name file) r)) as (-> & -> & -> & -> & Hsent).
      destruct (Hupd (name file) r) as (-> & -> & -> & -> & Hu5 & Hu6).
      rewrite Hu5, Hu6 in Hsent. subst r. page_cbn. page_cbn_in Hsent.
      rewrite Hs5 in Hsent. by split_and!.
  - destruct files as [| file rest].
    + unfold pick, changeEvent, changeListener.
      destruct (cvFileInput p); [| by split_and!; auto].
      destruct (uploadListeners _); page_cbn; cbn [pageOf]; page_cbn;
        by split_and!; auto.
    + unfold pick. destruct (cvFileInput p) eqn:Hi; [| by split_and!; auto].
      unfold changeEvent, changeListener.
      destruct (uploadListeners _); page_cbn; [| by split_and!; auto].
      set (r := set_cvFileInput _ _).
      destruct (Hsub (updateFileName (name file) r)) as (-> & -> & -> & -> & Hsent).
      destruct (Hupd (name file) r) as (-> & -> & -> & -> & Hu5 & Hu6).
      rewrite Hu5, Hu6 in Hsent. subst r. page_cbn. page_cbn_in Hsent.
      by split_and!.
Qed.

Lemma upload_frame_witness :
  dataTheme (pageOf (dropEvent [cv_pdf] fullPage)) = dataTheme fullPage
  ∧ localStorage (pageOf (dropEvent [cv_pdf] fullPage)) = localStorage fullPage
  ∧ themeToggle (pageOf (dropEvent [cv_pdf] fullPage)) = themeToggle fullPage
  ∧ sidebar (pageOf (dropEvent [cv_pdf] fullPage)) = sidebar fullPage
  ∧ (submitted (pageOf (dropEvent [cv_pdf] fullPage)) = submitted fullPage
     ∨ submitted (pageOf (dropEvent [cv_pdf] fullPage))
       = [cv_pdf] :: submitted fullPage).
Proof.
  apply (upload_frame fullPage [cv_pdf] (pageOf (dropEvent [cv_pdf] fullPage))).
  left. reflexivity.
Defined.

(** ** Alerts: class names *)

Lemma classTokens_token (tok rest cur : list N) :
  (∀ u, u ∈ tok → isSpace u = false) →
  cur ++ tok ≠ [] →
  classTokens (tok ++ 32%N :: rest) cur = (cur ++ tok) :: classTokens rest [].
Proof.
  revert cur. induction tok as [| c r IH]; intros cur Hns Hne.
  - rewrite app_nil_r in *. cbn [app classTokens].
    assert (isSpace 32 = true) as -> by reflexivity.
    destruct cur; [done | reflexivity].
  - cbn [app classTokens]. rewrite (Hns c (list_elem_of_here _ _)).
    rewrite IH.
    + by rewrite <- app_assoc.
    + intros u Hu. apply Hns. by apply list_elem_of_further.
    + rewrite <- app_assoc. by destruct cur.
Qed.

Lemma classTokens_finds (tok s rest cur : list N) :
  (∀ u, u ∈ tok → isSpace u = false) →
  tok ≠ [] →
  tok ∈ classTokens (s ++ 32%N :: tok ++ 32%N :: rest) cur.
Proof.
  intros Hns Hne. revert cur. induction s as [| c r IH]; intros cur.
  - cbn [app classTokens].
    assert (isSpace 32 = true) as -> by reflexivity.
    pose proof (classTokens_token tok rest [] Hns Hne) as Htok.
    cbn [app] in Htok.
    destruct cur; rewrite Htok; [| apply list_elem_of_further];
      apply list_elem_of_here.
  - cbn [app classTokens]. destruct (isSpace c); [| apply IH].
    destruct cur; [apply IH | apply list_elem_of_further, IH].
Qed.

(** X18: every alert [showAlert] creates carries the class
    [alert-dismissible], whatever the severity string is, spaces in it
    included; it is one of the alerts the selector of [initAutoCloseAlerts]
    would match. *)
Theorem injected_alert_is_dismissible (id : nat) (message type : list N) :
  dismissible (newAlert id message type) = true.
Proof.
  unfold dismissible, newAlert. cbn [className]. apply has_true.
  replace (Js.lit " alert-dismissible fade show")
    with (32%N :: Js.lit "alert-dismissible" ++ 32%N :: Js.lit "fade show")
    by reflexivity.
  rewrite app_assoc. apply classTokens_finds; [| discriminate].
  intros u Hu. vm_compute in Hu.
  repeat (apply elem_of_cons in Hu as [-> | Hu]; [reflexivity |]).
  by apply elem_of_nil in Hu.
Qed.

(** ** Alerts: the widget's close, the event loop *)

Lemma attached_setTimeout (id : nat) (cb : Callback) (delay : N) (p : Page) :
  attached id (setTimeout cb delay p) = attached id p.
Proof. reflexivity. Qed.


Lemma attached_removeAlert_other (id other : nat) (p : Page) :
  other ≠ id → attached id (removeAlert other p) = attached id p.
Proof.
  intros Hne. unfold attached, removeAlert.
  destruct (alertContainer p) as [kids |] eqn:E; page_cbn; [| by rewrite E].
  clear E. induction kids as [| a r IH]; [reflexivity |].
  destruct (decide (alertId a = other)) as [Ha | Ha].
  - rewrite filter_cons_False by (intros H; by apply H).
    rewrite IH. cbn [existsb].
    assert (Nat.eqb (alertId a) id = false) as Hno
      by (apply Nat.eqb_neq; congruence).
    by rewrite Hno.
  - rewrite filter_cons_True by exact Ha. cbn [existsb]. by rewrite IH.
Qed.

Lemma closeChildren_cons (id : nat) (a : AlertEl) (kids : list AlertEl) :
  closeChildren id (a :: kids)
  = (if Nat.eqb (alertId a) id
     then (if animated a then [withoutShow a] else [])
     else [a]) ++ closeChildren id kids.
Proof. reflexivity. Qed.

Lemma existsb_closeChildren_other (id other : nat) (kids : list AlertEl) :
  other ≠ id →
  existsb (λ a, Nat.eqb (alertId a) id) (closeChildren other kids)
  = existsb (λ a, Nat.eqb (alertId a) id) kids.
Proof.
  intros Hne. induction kids as [| a r IH]; [reflexivity |].
  rewrite closeChildren_cons, existsb_app, IH. cbn [existsb]. f_equal.
  destruct (Nat.eqb_spec (alertId a) other) as [Ha | Ha].
  - assert (Nat.eqb (alertId a) id = false) as Hno
      by (apply Nat.eqb_neq; congruence).
    rewrite Hno. destruct (animated a); cbn [existsb withoutShow alertId];
      by rewrite ?Hno.
  - cbn [existsb]. by rewrite orb_false_r.
Qed.

Lemma closeChildren_older (id : nat) (kids : list AlertEl) :
  (∀ a, a ∈ kids → (alertId a < id)%nat) → closeChildren id kids = kids.
Proof.
  induction kids as [| a r IH]; intros H; [reflexivity |].
  rewrite closeChildren_cons, IH
    by (intros b Hb; apply H; by apply list_elem_of_further).
  pose proof (H a (list_elem_of_here _ _)) as Ha.
  assert (Nat.eqb (alertId a) id = false) as Hno by (apply Nat.eqb_neq; lia).
  by rewrite Hno.
Qed.

Lemma fading_older (id : nat) (kids : list AlertEl) :
  (∀ a, a ∈ kids → (alertId a < id)%nat) → fading id kids = false.
Proof.
  induction kids as [| a r IH]; intros H; [reflexivity |].
  unfold fading in *. cbn [existsb].
  rewrite IH by (intros b Hb; apply H; by apply list_elem_of_further).
  pose proof (H a (list_elem_of_here _ _)) as Ha.
  assert (Nat.eqb (alertId a) id = false) as Hno by (apply Nat.eqb_neq; lia).
  by rewrite Hno.
Qed.

Lemma attached_bsAlertClose_other (id other : nat) (p : Page) :
  other ≠ id → attached id (bsAlertClose other p) = attached id p.
Proof.
  intros Hne. unfold bsAlertClose.
  destruct (alertContainer p) as [kids |] eqn:E; [| reflexivity].
  assert (attached id (set_alertContainer (Some (closeChildren other kids)) p)
          = attached id p) as Hset.
  { unfold attached. page_cbn. rewrite E.
    by apply existsb_closeChildren_other. }
  destruct (fading other kids); [rewrite attached_setTimeout |]; exact Hset.
Qed.

Lemma runCallback_other (cb : Callback) (id : nat) (p : Page) :
  callbackId cb ≠ id → attached id (pageOf (runCallback cb p)) = attached id p.
Proof.
  intros Hne.
  destruct cb as [other | other | other]; cbn [runCallback callbackId] in *.
  - by apply attached_bsAlertClose_other.
  - cbn [pageOf].
    destruct (attached other p); [by apply attached_bsAlertClose_other | done].
  - destruct (attached other p); [| reflexivity].
    destruct (Nat.ltb 0 (pendingEnds other (timers p))); cbn [pageOf];
      by apply attached_removeAlert_other.
Qed.

(** What [close()] and the end of a transition leave of the clock, the
    node counter and the queue: a [close()] sets at most the one timer of
    the widget, for the alert it closes, which is then in the container. *)
Lemma bsAlertClose_frame (id : nat) (p : Page) :
  nextId (bsAlertClose id p) = nextId p
  ∧ now (bsAlertClose id p) = now p
  ∧ (timers (bsAlertClose id p) = timers p
     ∨ (attached id p = true
        ∧ timers (bsAlertClose id p)
          = timers p ++ [mkTimer (now p + emulatedDuration)%N (transitionEnd id)])).
Proof.
  unfold bsAlertClose. destruct (alertContainer p) as [kids |] eqn:E;
    [| by split_and!; auto].
  destruct (fading id kids) eqn:Hf; [| by split_and!; auto].
  split_and!; try reflexivity. right. split; [| reflexivity].
  unfold attached. rewrite E. unfold fading in Hf.
  apply existsb_exists in Hf as (a & Ha & Hid).
  apply existsb_exists. exists a. split; [exact Ha |].
  by apply andb_true_iff in Hid as [Hid _].
Qed.

Lemma removeAlert_frame (id : nat) (p : Page) :
  nextId (removeAlert id p) = nextId p
  ∧ now (removeAlert id p) = now p
  ∧ timers (removeAlert id p) = timers p.
Proof. unfold removeAlert. by destruct (alertContainer p). Qed.

Lemma runCallback_frame (cb : Callback) (p : Page) :
  nextId (pageOf (runCallback cb p)) = nextId p
  ∧ now (pageOf (runCallback cb p)) = now p
  ∧ (timers (pageOf (runCallback cb p)) = timers p
     ∨ (attached (callbackId cb) p = true
        ∧ (timerWeight (mkTimer 0%N cb) = 2)%nat
        ∧ timers (pageOf (runCallback cb p))
          = timers p
            ++ [mkTimer (now p + emulatedDuration)%N
                  (transitionEnd (callbackId cb))])).
Proof.
  destruct cb as [id | id | id]; cbn [runCallback callbackId pageOf].
  - destruct (bsAlertClose_frame id p) as (-> & -> & [-> | [Ha ->]]);
      split_and!; auto.
  - destruct (attached id p) eqn:Ha; [| by split_and!; auto].
    destruct (bsAlertClose_frame id p) as (-> & -> & [-> | [_ ->]]);
      split_and!; auto.
  - destruct (attached id p); [| by split_and!; auto].
    destruct (removeAlert_frame id p) as (H1 & H2 & H3).
    destruct (Nat.ltb 0 (pendingEnds id (timers p))); cbn [pageOf];
      rewrite H1, H2, H3; split_and!; auto.
Qed.

Lemma popNext_perm (l rest : list Timer) (tm : Timer) :
  popNext l = Some (tm, rest) → l ≡ₚ tm :: rest.
Proof.
  revert tm rest. induction l as [| x r IH]; intros tm rest; [discriminate |].
  cbn [popNext]. destruct (popNext r) as [[y r'] |] eqn:E.
  - destruct (due x <=? due y)%N; intros [= <- <-]; [reflexivity |].
    rewrite (IH _ _ eq_refl). apply Permutation_swap.
  - intros [= <- <-]. destruct r as [| z r]; [reflexivity |].
    cbn [popNext] in E. destruct (popNext r) as [[? ?] |];
      [destruct (due z <=? _)%N |]; discriminate.
Qed.

Lemma popNext_least (l rest : list Timer) (tm : Timer) :
  popNext l = Some (tm, rest) → ∀ x, x ∈ l → (due tm <= due x)%N.
Proof.
  revert tm rest. induction l as [| x r IH]; intros tm rest; [discriminate |].
  cbn [popNext]. destruct (popNext r) as [[y r'] |] eqn:E.
  - destruct (N.leb_spec (due x) (due y)); intros [= <- <-] z Hz;
      apply elem_of_cons in Hz as [-> | Hz]; try lia.
    + pose proof (IH _ _ eq_refl z Hz). lia.
    + by apply (IH _ _ eq_refl).
  - intros [= <- <-] z Hz. destruct r as [| w r].
    + apply elem_of_cons in Hz as [-> | Hz]; [lia | by apply elem_of_nil in Hz].
    + cbn [popNext] in E. destruct (popNext r) as [[? ?] |];
        [destruct (due w <=? _)%N |]; discriminate.
Qed.

Lemma popNext_none (l : list Timer) : popNext l = None → l = [].
Proof.
  destruct l as [| x r]; [reflexivity |]. cbn [popNext].
  destruct (popNext r) as [[y r'] |]; [destruct (due x <=? due y)%N |];
    discriminate.
Qed.

(** One turn of the event loop. *)
Lemma runTimers_step (fuel : nat) (t : N) (p : Page) (tm : Timer)
    (rest : list Timer) :
  popNext (timers p) = Some (tm, rest) →
  (due tm <= t)%N →
  fst (runTimers (S fuel) t p)
  = fst (runTimers fuel t
           (pageOf (runCallback (callback tm)
                      (set_now (N.max (now p) (due tm)) (set_timers rest p))))).
Proof.
  intros Hpop Hdue. cbn [runTimers]. rewrite Hpop.
  apply N.leb_le in Hdue. rewrite Hdue.
  by destruct (runTimers fuel t _).
Qed.

Lemma runTimers_stop (fuel : nat) (t : N) (p : Page) :
  (∀ tm, tm ∈ timers p → (t < due tm)%N) → runTimers fuel t p = (p, O).
Proof.
  intros H. destruct fuel as [| fuel]; [reflexivity |]. cbn [runTimers].
  destruct (popNext (timers p)) as [[tm rest] |] eqn:E; [| reflexivity].
  assert (tm ∈ timers p) as Hin
    by (rewrite (popNext_perm _ _ _ E); apply list_elem_of_here).
  apply H, N.leb_gt in Hin. by rewrite Hin.
Qed.

(** The callbacks that run by [t] are not about the alert [id]: the alert
    stays in or out of the container as it was, and a timer that is not
    due stays pending. *)
Lemma runTimers_other (id : nat) (ours : Timer) (t : N) (fuel : nat) (p : Page) :
  (t < due ours)%N →
  ours ∈ timers p →
  (∀ tm, tm ∈ timers p → tm = ours ∨ callbackId (callback tm) ≠ id) →
  attached id (fst (runTimers fuel t p)) = attached id p
  ∧ ours ∈ timers (fst (runTimers fuel t p)).
Proof.
  intros Hlate. revert p. induction fuel as [| fuel IH]; intros p Hin Hothers;
    [by split |].
  destruct (popNext (timers p)) as [[tm rest] |] eqn:E;
    [| cbn [runTimers]; by rewrite E].
  destruct (N.leb_spec (due tm) t) as [Hdue | Hdue];
    [| cbn [runTimers]; rewrite E;
       apply N.leb_gt in Hdue; rewrite Hdue; by split].
  rewrite (runTimers_step _ _ _ _ _ E Hdue).
  pose proof (popNext_perm _ _ _ E) as Hperm.
  assert (tm ≠ ours) as Hne by (intros ->; lia).
  assert (callbackId (callback tm) ≠ id) as Hid.
  { destruct (Hothers tm) as [? | ?]; [| done | done].
    rewrite Hperm. apply list_elem_of_here. }
  set (q := set_now _ (set_timers rest p)).
  assert (ours ∈ rest) as Hrest.
  { rewrite Hperm in Hin. apply elem_of_cons in Hin as [? | ?]; congruence. }
  destruct (runCallback_frame (callback tm) q) as (_ & _ & Htimers).
  destruct (IH (pageOf (runCallback (callback tm) q))) as [Ha Ho].
  - destruct Htimers as [-> | (_ & _ & ->)]; subst q; page_cbn;
      [exact Hrest | apply elem_of_app; by left].
  - intros x Hx.
    assert (x ∈ rest ∨ callbackId (callback x) ≠ id) as [Hx' | Hx'].
    { destruct Htimers as [Heq | (_ & _ & Heq)]; rewrite Heq in Hx;
        subst q; page_cbn_in Hx; [by left |].
      apply elem_of_app in Hx as [Hx | Hx]; [by left |].
      apply elem_of_cons in Hx as [-> | Hx]; [by right |].
      by apply elem_of_nil in Hx. }
    + apply Hothers. rewrite Hperm. by apply list_elem_of_further.
    + by right.
  - split; [| exact Ho]. rewrite Ha, runCallback_other by exact Hid.
    reflexivity.
Qed.

Lemma showAlert_present (p : Page) (kids : list AlertEl) (message type : list N) :
  alertContainer p = Some kids →
  showAlert message type p
  = set_timers
      (timers p ++ [mkTimer (now p + 5000)%N (closeAlertIfAttached (nextId p))])
      (set_alertContainer (Some (newAlert (nextId p) message type :: kids))
         (set_nextId (S (nextId p)) p)).
Proof. intros H. unfold showAlert. by rewrite H. Qed.

Lemma attached_showAlert (p : Page) (kids : list AlertEl) (message type : list N) :
  alertContainer p = Some kids →
  attached (nextId p) (showAlert message type p) = true.
Proof.
  intros Hc. rewrite (showAlert_present _ _ _ _ Hc). unfold attached. page_cbn.
  cbn [existsb newAlert alertId]. by rewrite Nat.eqb_refl.
Qed.

Lemma fullPage_freshIds : freshIds fullPage.
Proof. split; intros x Hx; by apply elem_of_nil in Hx. Defined.

(** X16: an injected alert is not closed early.  On a page whose nodes
    were created in order, as long as the clock is short of 5000 ms after
    the injection, running the callbacks that are due leaves the alert in
    the container and its timer pending. *)
Theorem injected_alert_stays_until_due
    (p : Page) (kids : list AlertEl) (message type : list N) (t : N) :
  freshIds p →
  alertContainer p = Some kids →
  (t < now p + 5000)%N →
  attached (nextId p) (advanceTo t (showAlert message type p)) = true
  ∧ mkTimer (now p + 5000)%N (closeAlertIfAttached (nextId p))
    ∈ timers (advanceTo t (showAlert message type p)).
Proof.
  intros [_ Hfresh] Hc Ht. unfold advanceTo.
  set (ours := mkTimer (now p + 5000)%N (closeAlertIfAttached (nextId p))).
  destruct (runTimers_other (nextId p) ours t
              (2 * length (timers (showAlert message type p)))
              (showAlert message type p)) as [Ha Ho].
  - exact Ht.
  - rewrite (showAlert_present _ _ _ _ Hc). page_cbn.
    apply elem_of_app. right. apply list_elem_of_here.
  - rewrite (showAlert_present _ _ _ _ Hc). page_cbn.
    intros tm [Hin | Hin]%elem_of_app.
    + right. pose proof (Hfresh tm Hin). lia.
    + left. apply elem_of_cons in Hin as [-> | Hin]; [reflexivity |].
      by apply elem_of_nil in Hin.
  - split.
    + unfold attached in *. page_cbn. unfold attached in Ha. rewrite Ha.
      by apply (attached_showAlert _ kids).
    + exact Ho.
Qed.

Lemma injected_alert_stays_until_due_witness :
  attached (nextId fullPage)
    (advanceTo 4999 (showAlert rejectMessage danger fullPage)) = true
  ∧ mkTimer (now fullPage + 5000)%N (closeAlertIfAttached (nextId fullPage))
    ∈ timers (advanceTo 4999 (showAlert rejectMessage danger fullPage)).
Proof.
  apply (injected_alert_stays_until_due fullPage [] rejectMessage danger 4999);
    [exact fullPage_freshIds | reflexivity | reflexivity].
Defined.

Lemma elem_of_tokenSet (c s : list N) :
  c ∈ classTokens s [] → c ∈ tokenSet s.
Proof.
  unfold tokenSet.
  assert (∀ l acc, c ∈ acc ∨ c ∈ l →
                   c ∈ foldl (λ acc x, ClassList.add x acc) acc l) as Hfold.
  { induction l as [| x r IH]; intros acc H; cbn [foldl].
    - destruct H as [H | H]; [exact H | by apply elem_of_nil in H].
    - apply IH. destruct H as [H | [-> | H]%elem_of_cons]; [| | by right];
        left; unfold ClassList.add.
      + destruct (ClassList.has x acc); [exact H |].
        apply elem_of_app. by left.
      + destruct (ClassList.has x acc) eqn:E; [by apply has_true |].
        apply elem_of_app. right. apply list_elem_of_here. }
  intros H. apply Hfold. by right.
Qed.

(** Every alert [showAlert] creates fades when it is closed, whatever the
    severity string is. *)
Lemma animated_newAlert (id : nat) (message type : list N) :
  animated (newAlert id message type) = true.
Proof.
  unfold animated, newAlert. cbn [className].
  rewrite has_remove_other by discriminate.
  apply has_true, elem_of_tokenSet.
  replace (Js.lit " alert-dismissible fade show")
    with (Js.lit " alert-dismissible" ++ 32%N :: fade ++ 32%N :: Js.lit "show")
    by reflexivity.
  rewrite !app_assoc. apply classTokens_finds; [| discriminate].
  intros u Hu. vm_compute in Hu.
  repeat (apply elem_of_cons in Hu as [-> | Hu]; [reflexivity |]).
  by apply elem_of_nil in Hu.
Qed.

Lemma closeChildren_keeps_fading (id : nat) (a : AlertEl) (kids : list AlertEl) :
  a ∈ kids → alertId a = id → animated a = true →
  fading id kids = true
  ∧ existsb (λ b, Nat.eqb (alertId b) id) (closeChildren id kids) = true.
Proof.
  intros Hin Hid Han. split.
  - unfold fading. apply existsb_exists. exists a.
    split; [by apply list_elem_of_In |]. rewrite Han, andb_true_r.
    by apply Nat.eqb_eq.
  - apply existsb_exists. exists (withoutShow a). split.
    + unfold closeChildren. apply in_flat_map.
      exists a. split; [by apply list_elem_of_In |].
      assert (Nat.eqb (alertId a) id = true) as -> by (by apply Nat.eqb_eq).
      rewrite Han. by left.
    + cbn [withoutShow alertId]. by apply Nat.eqb_eq.
Qed.




(** The injected alert on the page with every element: still there, with
    [show] taken off, when the callback has run at 5000 ms; gone from
    5155 ms on; and nothing failed. *)
Example alert_fading_at_5000 :
  alertContainer (advanceTo 5000 (showAlert rejectMessage danger fullPage))
  = Some [mkAlert 10 (Js.lit "alert alert-danger alert-dismissible fade")
            (rejectMessage ++ closeButton)]
  ∧ timers (advanceTo 5000 (showAlert rejectMessage danger fullPage))
    = [mkTimer 5155%N (transitionEnd 10)].
Proof. split; reflexivity. Qed.

Example alert_gone_at_5155 :
  attached 10 (advanceTo 5154 (showAlert rejectMessage danger fullPage)) = true
  ∧ alertContainer (advanceTo 5155 (showAlert rejectMessage danger fullPage))
    = Some []
  ∧ faultsBy 5155 (showAlert rejectMessage danger fullPage) = O.
Proof. split_and!; reflexivity. Qed.

(** A dismissal that has run its course before the timer fires: the
    callback finds the alert without a parent and does nothing. *)
Example dismissed_early_then_timer :
  alertContainer
    (advanceTo 6000
       (dismiss 10 (advanceTo 1000 (showAlert rejectMessage danger fullPage))))
  = Some []
  ∧ faultsBy 6000
      (dismiss 10 (advanceTo 1000 (showAlert rejectMessage danger fullPage)))
    = O.
Proof. split; reflexivity. Qed.

(** A dismissal 100 ms before the timer fires: the alert is still fading
    and still has a parent at 5000 ms, the callback calls [close()] a
    second time, and the end of the transition, at 5055 ms, removes the
    alert and reports one fault. *)
Example dismissed_late_then_timer :
  attached 10
    (advanceTo 5000
       (dismiss 10 (advanceTo 4900 (showAlert rejectMessage danger fullPage))))
  = true
  ∧ faultsBy 5054
      (dismiss 10 (advanceTo 4900 (showAlert rejectMessage danger fullPage)))
    = O
  ∧ faultsBy 5055
      (dismiss 10 (advanceTo 4900 (showAlert rejectMessage danger fullPage)))
    = 1%nat
  ∧ alertContainer
      (advanceTo 5055
         (dismiss 10 (advanceTo 4900 (showAlert rejectMessage danger fullPage))))
    = Some [].
Proof. split_and!; reflexivity. Qed.

Lemma queueWeight_perm (l k : list Timer) :
  l ≡ₚ k → queueWeight l = queueWeight k.
Proof.
  induction 1 as [| x l k _ IH | x y l | l k m _ IH1 _ IH2];
    cbn [queueWeight foldr] in *; try lia.
  fold (queueWeight l) in *. fold (queueWeight k) in *. lia.
Qed.

Lemma queueWeight_app (l k : list Timer) :
  queueWeight (l ++ k) = (queueWeight l + queueWeight k)%nat.
Proof.
  induction l as [| x r IH]; [reflexivity |].
  cbn [queueWeight foldr app] in *. fold (queueWeight (r ++ k)).
  fold (queueWeight r). lia.
Qed.

Lemma queueWeight_length (l : list Timer) :
  (queueWeight l <= 2 * length l)%nat.
Proof.
  induction l as [| x r IH]; cbn [queueWeight foldr length]; [lia |].
  fold (queueWeight r). unfold timerWeight. destruct (callback x); lia.
Qed.

Lemma timerWeight_pos (tm : Timer) : (1 <= timerWeight tm)%nat.
Proof. unfold timerWeight. destruct (callback tm); lia. Qed.

(** The fuel of the event loop is enough: by the time the loop stops, no
    pending timer is due. *)
Lemma runTimers_complete (fuel : nat) (t : N) (p : Page) :
  (queueWeight (timers p) <= fuel)%nat →
  ∀ tm, tm ∈ timers (fst (runTimers fuel t p)) → (t < due tm)%N.
Proof.
  revert p. induction fuel as [| fuel IH]; intros p Hw tm Hin.
  - cbn [runTimers fst] in Hin. destruct (timers p) as [| x r];
      [by apply elem_of_nil in Hin |].
    cbn [queueWeight foldr] in Hw. pose proof (timerWeight_pos x). lia.
  - destruct (popNext (timers p)) as [[nxt rest] |] eqn:E.
    + pose proof (popNext_perm _ _ _ E) as Hperm.
      pose proof (queueWeight_perm _ _ Hperm) as Hsum.
      cbn [queueWeight foldr] in Hsum. fold (queueWeight rest) in Hsum.
      destruct (N.leb_spec (due nxt) t) as [Hdue | Hdue].
      * rewrite (runTimers_step _ _ _ _ _ E Hdue) in Hin.
        apply (IH _) in Hin; [exact Hin |].
        set (q := set_now _ (set_timers rest p)).
        destruct (runCallback_frame (callback nxt) q)
          as (_ & _ & [-> | (_ & Htwo & ->)]); subst q; page_cbn.
        -- pose proof (timerWeight_pos nxt). lia.
        -- rewrite queueWeight_app. cbn [queueWeight foldr].
           unfold timerWeight in *. cbn [callback] in *. lia.
      * cbn [runTimers] in Hin. rewrite E in Hin.
        apply N.leb_gt in Hdue as Hleb. rewrite Hleb in Hin.
        cbn [fst] in Hin. pose proof (popNext_least _ _ _ E tm Hin). lia.
    + cbn [runTimers] in Hin. rewrite E in Hin. cbn [fst] in Hin.
      rewrite (popNext_none _ E) in Hin. by apply elem_of_nil in Hin.
Qed.

(** After [advanceTo] no callback that was due is left waiting. *)
Lemma advanceTo_runs_all_due (t : N) (p : Page) (tm : Timer) :
  tm ∈ timers (advanceTo t p) → (t < due tm)%N.
Proof.
  unfold advanceTo. page_cbn. apply runTimers_complete, queueWeight_length.
Qed.

(** The callbacks that run are not about the alert [id]: it stays in or
    out of the container as it was. *)
Lemma runTimers_untouched (id : nat) (t : N) (fuel : nat) (p : Page) :
  (∀ tm, tm ∈ timers p → callbackId (callback tm) ≠ id) →
  attached id (fst (runTimers fuel t p)) = attached id p.
Proof.
  revert p. induction fuel as [| fuel IH]; intros p Hothers; [reflexivity |].
  destruct (popNext (timers p)) as [[tm rest] |] eqn:E;
    [| cbn [runTimers]; by rewrite E].
  destruct (N.leb_spec (due tm) t) as [Hdue | Hdue];
    [| cbn [runTimers]; rewrite E;
       apply N.leb_gt in Hdue; by rewrite Hdue].
  rewrite (runTimers_step _ _ _ _ _ E Hdue).
  pose proof (popNext_perm _ _ _ E) as Hperm.
  assert (callbackId (callback tm) ≠ id) as Hid
    by (apply Hothers; rewrite Hperm; apply list_elem_of_here).
  set (q := set_now _ (set_timers rest p)).
  rewrite IH.
  - by rewrite runCallback_other by exact Hid.
  - intros x Hx.
    destruct (runCallback_frame (callback tm) q)
      as (_ & _ & [Heq | (_ & _ & Heq)]); rewrite Heq in Hx;
      subst q; page_cbn_in Hx.
    + apply Hothers. rewrite Hperm. by apply list_elem_of_further.
    + apply elem_of_app in Hx as [Hx | Hx].
      * apply Hothers. rewrite Hperm. by apply list_elem_of_further.
      * apply elem_of_cons in Hx as [-> | Hx]; [exact Hid |].
        by apply elem_of_nil in Hx.
Qed.

Lemma runTimers_full_step (fuel : nat) (t : N) (p : Page) (tm : Timer)
    (rest : list Timer) (q : Page) :
  popNext (timers p) = Some (tm, rest) →
  (due tm <= t)%N →
  runCallback (callback tm)
    (set_now (N.max (now p) (due tm)) (set_timers rest p)) = Ok q →
  runTimers (S fuel) t p = runTimers fuel t q.
Proof.
  intros Hpop Hdue Hrun. cbn [runTimers]. rewrite Hpop.
  apply N.leb_le in Hdue. rewrite Hdue, Hrun. cbn [pageOf thrown].
  by destruct (runTimers fuel t q).
Qed.

(** X15: the auto-close takes out the injected alert and no other.  When
    the alerts of the container are older nodes and no other timer is
    pending, then from the end of the fade on, 5000 ms and the widget's
    wait after the injection, the container is what it was before the
    injection, and the event loop has reported no fault. *)
Theorem auto_close_restores_container
    (p : Page) (kids : list AlertEl) (message type : list N) (t : N) :
  alertContainer p = Some kids →
  (∀ a, a ∈ kids → (alertId a < nextId p)%nat) →
  timers p = [] →
  (now p + 5000 + emulatedDuration <= t)%N →
  alertContainer (advanceTo t (showAlert message type p)) = Some kids
  ∧ faultsBy t (showAlert message type p) = O.
Proof.
  intros Hc Hold Hnone Ht.
  set (alert := newAlert (nextId p) message type).
  set (q0 := showAlert message type p).
  assert (timers q0
          = [mkTimer (now p + 5000)%N (closeAlertIfAttached (nextId p))]) as Ht0.
  { subst q0. rewrite (showAlert_present _ _ _ _ Hc). page_cbn.
    by rewrite Hnone. }
  assert (alertContainer q0 = Some (alert :: kids)) as Hc0.
  { subst q0. by rewrite (showAlert_present _ _ _ _ Hc). }
  assert (now q0 = now p) as Hn0.
  { subst q0. by rewrite (showAlert_present _ _ _ _ Hc). }
  set (q0' := set_now (N.max (now q0) (now p + 5000)%N) (set_timers [] q0)).
  set (q1 := bsAlertClose (nextId p) q0').
  assert (alertContainer q1 = Some (withoutShow alert :: kids)
          ∧ timers q1
            = [mkTimer (now p + 5000 + emulatedDuration)%N (transitionEnd (nextId p))]
          ∧ now q1 = (now p + 5000)%N) as (Hc1 & Ht1 & Hn1).
  { subst q1 q0'. unfold bsAlertClose. page_cbn. rewrite Hc0.
    destruct (closeChildren_keeps_fading (nextId p) alert (alert :: kids))
      as [Hfade _];
      [apply list_elem_of_here | reflexivity | apply animated_newAlert |].
    rewrite Hfade. unfold setTimeout. page_cbn.
    rewrite closeChildren_cons, (closeChildren_older _ _ Hold).
    subst alert. cbn [newAlert alertId]. rewrite Nat.eqb_refl.
    fold (newAlert (nextId p) message type). rewrite animated_newAlert.
    rewrite Hn0. replace (N.max (now p) (now p + 5000)) with (now p + 5000)%N
      by lia.
    by split_and!. }
  set (q1' := set_now (N.max (now q1) (now p + 5000 + emulatedDuration)%N)
                (set_timers [] q1)).
  set (q2 := removeAlert (nextId p) q1').
  assert (alertContainer q2 = Some kids ∧ timers q2 = []) as [Hc2 Ht2].
  { subst q2 q1'. unfold removeAlert. page_cbn. rewrite Hc1. page_cbn.
    split; [| reflexivity]. f_equal.
    rewrite filter_cons_False by (intros H; by apply H).
    induction kids as [| a r IH] in Hold |- *; [reflexivity |].
    rewrite filter_cons_True.
    - f_equal. apply IH. intros b Hb. apply Hold. by apply list_elem_of_further.
    - pose proof (Hold a (list_elem_of_here _ _)). lia. }
  assert (runTimers (2 * length (timers q0)) t q0 = (q2, O)) as Hrun.
  { rewrite Ht0. cbn [length Nat.mul Nat.add].
    rewrite (runTimers_full_step _ _ _
               (mkTimer (now p + 5000)%N (closeAlertIfAttached (nextId p)))
               [] q1).
    - rewrite (runTimers_full_step _ _ _
                 (mkTimer (now p + 5000 + emulatedDuration)%N
                    (transitionEnd (nextId p)))
                 [] q2).
      + apply runTimers_stop. rewrite Ht2. intros tm Htm.
        by apply elem_of_nil in Htm.
      + by rewrite Ht1.
      + cbn [due]. unfold emulatedDuration, transitionMs in *. lia.
      + cbn [callback due runCallback]. fold q1'.
        assert (attached (nextId p) q1' = true) as ->.
        { unfold attached. subst q1'. page_cbn. rewrite Hc1.
          cbn [existsb withoutShow alertId]. subst alert.
          cbn [newAlert alertId]. by rewrite Nat.eqb_refl. }
        subst q1'. page_cbn. reflexivity.
    - by rewrite Ht0.
    - cbn [due]. unfold emulatedDuration, transitionMs in *. lia.
    - cbn [callback due runCallback]. fold q0'.
      assert (attached (nextId p) q0' = true) as ->; [| reflexivity].
      unfold attached. subst q0'. page_cbn. rewrite Hc0.
      cbn [existsb]. subst alert. cbn [newAlert alertId].
      by rewrite Nat.eqb_refl. }
  unfold advanceTo, faultsBy. fold q0. rewrite Hrun. cbn [fst snd]. page_cbn.
  by split.
Qed.

Lemma auto_close_restores_container_witness :
  alertContainer (advanceTo 5155 (showAlert rejectMessage danger pageWithAlerts))
  = alertContainer pageWithAlerts
  ∧ faultsBy 5155 (showAlert rejectMessage danger pageWithAlerts) = O.
Proof.
  apply (auto_close_restores_container pageWithAlerts
           [mkAlert 7 (Js.lit "alert alert-info alert-dismissible fade show")
              (Js.lit "Saved.");
            mkAlert 8 (Js.lit "alert alert-warning") (Js.lit "Quota low.")]
           rejectMessage danger 5155);
    [reflexivity | | reflexivity | reflexivity].
  intros a Ha.
  repeat (apply elem_of_cons in Ha as [-> | Ha]; [cbn [alertId nextId]; cbn; lia |]).
  by apply elem_of_nil in Ha.
Defined.

Lemma set_timers_set_timers (a b : list Timer) (p : Page) :
  set_timers a (set_timers b p) = set_timers a p.
Proof. reflexivity. Qed.

Lemma schedule_all (l : list AlertEl) (p : Page) :
  foldl (λ q a, setTimeout (closeAlert (alertId a)) 5000 q) p l
  = set_timers (timers p ++ (autoCloseTimer p <$> l)) p.
Proof.
  revert p. induction l as [| a r IH]; intros p; cbn [foldl fmap list_fmap].
  - rewrite app_nil_r. by destruct p.
  - rewrite IH. unfold setTimeout. page_cbn.
    rewrite set_timers_set_timers, <- app_assoc. reflexivity.
Qed.

Lemma initAutoCloseAlerts_timers (before after : list AlertEl) (p : Page) :
  initAutoCloseAlerts before after p
  = set_timers
      (timers p
       ++ (autoCloseTimer p
             <$> filter (λ a, dismissible a = true)
                   (before ++ default [] (alertContainer p) ++ after))) p.
Proof. unfold initAutoCloseAlerts. apply schedule_all. Qed.

(** X17: the alerts the server rendered.  [initAutoCloseAlerts] leaves the
    page as it is but for the queue, to which it adds one timer, due
    5000 ms later, for each alert of the document that carries the class
    [alert-dismissible], inside the alert container or not, in document
    order, and none for the others.  When no other timer is pending, an
    alert that is none of those nodes is never closed by these timers: at
    every time it is in the container exactly if it was at load. *)
Theorem server_alerts_get_timers (before after : list AlertEl) (p : Page) :
  initAutoCloseAlerts before after p
  = set_timers
      (timers p
       ++ (autoCloseTimer p
             <$> filter (λ a, dismissible a = true)
                   (before ++ default [] (alertContainer p) ++ after))) p
  ∧ alertContainer (initAutoCloseAlerts before after p) = alertContainer p
  ∧ (timers p = [] →
     ∀ id t,
       (∀ a, a ∈ before ++ default [] (alertContainer p) ++ after →
             dismissible a = true → alertId a ≠ id) →
       attached id (advanceTo t (initAutoCloseAlerts before after p))
       = attached id p).
Proof.
  rewrite initAutoCloseAlerts_timers. split_and!; try reflexivity.
  intros Hnone id t Hother. unfold advanceTo.
  set (q := set_timers _ p).
  assert (attached id (fst (runTimers (2 * length (timers q)) t q))
          = attached id q) as Hkeep.
  { apply runTimers_untouched. subst q. page_cbn. rewrite Hnone.
    intros tm Htm. cbn [app] in Htm.
    apply list_elem_of_fmap in Htm as (a & -> & Ha).
    apply list_elem_of_filter in Ha as [Hd Ha].
    cbn [callback autoCloseTimer callbackId]. by apply Hother. }
  unfold attached in *. page_cbn. exact Hkeep.
Qed.

(** The load of a page with a stray dismissible alert, a dismissible alert
    in the container and one that is not dismissible: two timers; after
    the fade only the plain alert is left, and nothing failed. *)
Example server_alerts_at_load :
  timers (onLoad [strayAlert] [] pageWithAlerts)
  = [mkTimer 5000%N (closeAlert 6); mkTimer 5000%N (closeAlert 7)]
  ∧ alertContainer (advanceTo 5000 (onLoad [strayAlert] [] pageWithAlerts))
    = Some [mkAlert 7 (Js.lit "alert alert-info alert-dismissible fade")
              (Js.lit "Saved.");
            mkAlert 8 (Js.lit "alert alert-warning") (Js.lit "Quota low.")]
  ∧ alertContainer (advanceTo 5155 (onLoad [strayAlert] [] pageWithAlerts))
    = Some [mkAlert 8 (Js.lit "alert alert-warning") (Js.lit "Quota low.")]
  ∧ faultsBy 5155 (onLoad [strayAlert] [] pageWithAlerts) = O.
Proof. split_and!; reflexivity. Qed.

Lemma freshIds_same (q r : Page) :
  alertContainer r = alertContainer q →
  timers r = timers q →
  nextId r = nextId q →
  freshIds q → freshIds r.
Proof. unfold freshIds. by intros -> -> ->. Qed.

Lemma alerts_untouched_by_submit (r : Page) :
  alertContainer (pageOf (submitForm r)) = alertContainer r
  ∧ timers (pageOf (submitForm r)) = timers r
  ∧ nextId (pageOf (submitForm r)) = nextId r.
Proof. unfold submitForm. by destruct (uploadForm r). Qed.

Lemma alerts_untouched_by_updateFileName (nm : list N) (r : Page) :
  alertContainer (updateFileName nm r) = alertContainer r
  ∧ timers (updateFileName nm r) = timers r
  ∧ nextId (updateFileName nm r) = nextId r.
Proof.
  unfold updateFileName. by destruct (uploadZone r) as [[cls [txt |]] |].
Qed.

Lemma alerts_untouched_by_afterDropStart (r : Page) :
  alertContainer (afterDropStart r) = alertContainer r
  ∧ timers (afterDropStart r) = timers r
  ∧ nextId (afterDropStart r) = nextId r.
Proof.
  unfold afterDropStart, withZoneClasses. by destruct (uploadZone r).
Qed.

Lemma closeChildren_ids (id : nat) (kids : list AlertEl) (a : AlertEl) :
  a ∈ closeChildren id kids → ∃ b, b ∈ kids ∧ alertId b = alertId a.
Proof.
  induction kids as [| x r IH]; [intros H; by apply elem_of_nil in H |].
  rewrite closeChildren_cons. intros [H | H]%elem_of_app.
  - exists x. split; [apply list_elem_of_here |].
    destruct (Nat.eqb (alertId x) id); [destruct (animated x) |];
      try (by apply elem_of_nil in H);
      apply elem_of_cons in H as [-> | H]; try (by apply elem_of_nil in H);
      reflexivity.
  - destruct (IH H) as (b & Hb & Hid). exists b.
    split; [by apply list_elem_of_further | exact Hid].
Qed.

Lemma freshIds_runCallback (cb : Callback) (p : Page) :
  freshIds p → freshIds (pageOf (runCallback cb p)).
Proof.
  intros Hp.
  assert (∀ id, freshIds (removeAlert id p)) as Hrem.
  { intros id. unfold removeAlert.
    destruct (alertContainer p) as [kids |] eqn:E; [| exact Hp].
    destruct Hp as [Ha Ht]. rewrite E in Ha. split; page_cbn; [| exact Ht].
    cbn [default] in *. intros a Hin. apply list_elem_of_filter in Hin.
    apply Ha. tauto. }
  assert (∀ id, freshIds (bsAlertClose id p)) as Hclose.
  { intros id. unfold bsAlertClose.
    destruct (alertContainer p) as [kids |] eqn:E; [| exact Hp].
    destruct Hp as [Ha Ht]. rewrite E in Ha. cbn [default] in Ha.
    assert (∀ a, a ∈ closeChildren id kids → (alertId a < nextId p)%nat) as Hk.
    { intros a Hin. destruct (closeChildren_ids _ _ _ Hin) as (b & Hb & <-).
      by apply Ha. }
    destruct (fading id kids) eqn:Hf; [| split; page_cbn; assumption].
    unfold setTimeout. split; page_cbn; [exact Hk |].
    intros tm [Hin | Hin]%elem_of_app; [by apply Ht |].
    apply elem_of_cons in Hin as [-> | Hin]; [| by apply elem_of_nil in Hin].
    cbn [callback callbackId]. unfold fading in Hf.
    apply existsb_exists in Hf as (a & Hin & Hid).
    apply andb_true_iff in Hid as [Hid _]. apply Nat.eqb_eq in Hid as <-.
    by apply Ha, list_elem_of_In. }
  destruct cb as [id | id | id]; cbn [runCallback pageOf].
  - apply Hclose.
  - destruct (attached id p); [apply Hclose | exact Hp].
  - destruct (attached id p); [| exact Hp].
    destruct (Nat.ltb 0 _); apply Hrem.
Qed.

Lemma freshIds_runTimers (fuel : nat) (t : N) (p : Page) :
  freshIds p → freshIds (fst (runTimers fuel t p)).
Proof.
  revert p. induction fuel as [| fuel IH]; intros p Hp; [exact Hp |].
  destruct (popNext (timers p)) as [[tm rest] |] eqn:E;
    [| cbn [runTimers]; by rewrite E].
  destruct (N.leb_spec (due tm) t) as [Hdue | Hdue];
    [| cbn [runTimers]; rewrite E;
       apply N.leb_gt in Hdue; by rewrite Hdue].
  rewrite (runTimers_step _ _ _ _ _ E Hdue).
  apply IH, freshIds_runCallback. destruct Hp as [Ha Ht].
  split; page_cbn; [exact Ha |]. intros x Hx. apply Ht.
  rewrite (popNext_perm _ _ _ E). by apply list_elem_of_further.
Qed.

(** Node identities stay in order.  When the alerts in the container and
    the alerts the pending timers refer to were created before the next
    node, this is still so after [showAlert], after any drop, after
    [initAutoCloseAlerts] over alerts that exist, and after the event loop
    has run the callbacks due; so an alert that is injected never shares
    its identity with one already on the page. *)
Lemma freshIds_preserved (p : Page) :
  freshIds p →
  (∀ message type, freshIds (showAlert message type p))
  ∧ (∀ files, freshIds (pageOf (dropEvent files p)))
  ∧ (∀ before after,
       (∀ a, a ∈ before ++ after → (alertId a < nextId p)%nat) →
       freshIds (initAutoCloseAlerts before after p))
  ∧ (∀ t, freshIds (advanceTo t p)).
Proof.
  intros [Ha Ht].
  assert (∀ q message type,
            freshIds q → freshIds (showAlert message type q)) as Hshow.
  { intros q message type Hq. unfold showAlert.
    destruct (alertContainer q) as [kids |] eqn:E; [| exact Hq].
    destruct Hq as [Hqa Hqt]. rewrite E in Hqa. cbn [default] in Hqa.
    unfold setTimeout. split; page_cbn; cbn [default].
    - intros a [-> | Hin]%elem_of_cons; [cbn [alertId newAlert]; lia |].
      pose proof (Hqa a Hin). lia.
    - intros tm [Hin | Hin]%elem_of_app.
      + pose proof (Hqt tm Hin). lia.
      + apply elem_of_cons in Hin as [-> | Hin];
          [cbn [callback callbackId]; lia |].
        by apply elem_of_nil in Hin. }
  assert (∀ q, freshIds q → freshIds (afterDropStart q)) as Hstart.
  { intros q. destruct (alerts_untouched_by_afterDropStart q) as (H1 & H2 & H3).
    by apply freshIds_same. }
  split_and!.
  - intros message type. by apply Hshow.
  - intros files. unfold dropEvent, dropListener. fold (afterDropStart p).
    destruct (uploadListeners p); [| by split].
    destruct files as [| file rest]; [by apply Hstart |].
    destruct (notAllowed (name file)); [by apply Hshow, Hstart |].
    set (r := set_cvFileInput _ _).
    destruct (alerts_untouched_by_submit (updateFileName (name file) r))
      as (H1 & H2 & H3).
    destruct (alerts_untouched_by_updateFileName (name file) r)
      as (H4 & H5 & H6).
    apply (freshIds_same (afterDropStart p));
      [by rewrite H1, H4 | by rewrite H2, H5 | by rewrite H3, H6 |].
    by apply Hstart.
  - intros before after Hdoc. rewrite initAutoCloseAlerts_timers.
    split; page_cbn; [exact Ha |].
    intros tm [Hin | Hin]%elem_of_app; [by apply Ht |].
    apply list_elem_of_fmap in Hin as (a & -> & Hin).
    apply list_elem_of_filter in Hin as [_ Hin].
    cbn [callback autoCloseTimer callbackId].
    apply elem_of_app in Hin as [Hin | Hin];
      [apply Hdoc, elem_of_app; by left |].
    apply elem_of_app in Hin as [Hin | Hin];
      [by apply Ha | apply Hdoc, elem_of_app; by right].
  - intros t. unfold advanceTo.
    pose proof (freshIds_runTimers (2 * length (timers p)) t p (conj Ha Ht))
      as [Hqa Hqt].
    split; page_cbn; assumption.
Qed.

(** ** The sidebar and the theme toggle under a whole click *)

(** C9 fails as stated: on the page with every element, 800 wide and with
    the sidebar shown, a click on node 2, inside the toggle button, takes
    [show] off the sidebar, through the button's own listener. *)
Lemma click_inside_button_closes_sidebar :
  ¬ insideClickKeepsShow 2 fullPage.
Proof.
  intros H.
  specialize (H (Elem 1 [Elem 2 []])
                (mkSidebar [Js.lit "sidebar"; show] (Elem 3 [Elem 4 []; Elem 5 []]))
                eq_refl eq_refl).
  assert (sidebarShown (sidebarClickEvent 2 fullPage) = true) as Hshown.
  { apply H; [cbn; lia | by right | reflexivity]. }
  vm_compute in Hshown. discriminate.
Qed.

(** C9, amended: a click at a width of at most 992, seen through the
    listener of the toggle button and the listener of the document.  With
    the target outside both the sidebar and the button, [show] is taken
    off the sidebar.  With the target inside the sidebar and outside the
    button, the page is left as it is.  With the target inside the button,
    the button's listener toggles [show], so that a sidebar that was shown
    is hidden and one that was hidden is shown, and the listener of the
    document leaves that as it is. *)
Theorem narrow_click_on_sidebar_page
    (p : Page) (btn : Element) (sb : Sidebar) (target : nat) :
  sidebarToggle p = Some btn →
  sidebar p = Some sb →
  innerWidth p <= 992 →
  (contains (sidebarTree sb) target = false →
   contains btn target = false →
   sidebarClickEvent target p
   = set_sidebar
       (Some (mkSidebar (ClassList.remove show (sidebarClasses sb))
                (sidebarTree sb))) p
   ∧ sidebarShown (sidebarClickEvent target p) = false)
  ∧ (contains (sidebarTree sb) target = true →
     contains btn target = false →
     sidebarClickEvent target p = p)
  ∧ (contains btn target = true →
     sidebarClickEvent target p
     = set_sidebar
         (Some (mkSidebar (ClassList.toggle show (sidebarClasses sb))
                  (sidebarTree sb))) p
     ∧ sidebarShown (sidebarClickEvent target p) = negb (sidebarShown p)).
Proof.
  intros Hb Hs Hw. apply Z.leb_le in Hw. split_and!.
  - intros Hout Hnb. unfold sidebarClickEvent, documentClick.
    rewrite Hb, Hs, Hnb, Hb, Hs, Hw, Hout, Hnb. cbn [negb andb].
    unfold withSidebarClasses. rewrite Hs. split; [reflexivity |].
    unfold sidebarShown. page_cbn. cbn [sidebarClasses]. apply has_remove.
  - intros Hin Hnb. unfold sidebarClickEvent, documentClick.
    rewrite Hb, Hs, Hnb, Hb, Hs, Hw, Hin. reflexivity.
  - intros Hin. rewrite (button_click_toggles _ _ _ _ Hb Hs Hin).
    split; [reflexivity |]. unfold sidebarShown. page_cbn. rewrite Hs.
    cbn [sidebarClasses]. apply has_toggle.
Qed.

Lemma narrow_click_on_sidebar_page_witness :
  (contains (Elem 3 [Elem 4 []; Elem 5 []]) 2 = false →
   contains (Elem 1 [Elem 2 []]) 2 = false →
   sidebarClickEvent 2 fullPage
   = set_sidebar
       (Some (mkSidebar (ClassList.remove show [Js.lit "sidebar"; show])
                (Elem 3 [Elem 4 []; Elem 5 []]))) fullPage
   ∧ sidebarShown (sidebarClickEvent 2 fullPage) = false)
  ∧ (contains (Elem 3 [Elem 4 []; Elem 5 []]) 2 = true →
     contains (Elem 1 [Elem 2 []]) 2 = false →
     sidebarClickEvent 2 fullPage = fullPage)
  ∧ (contains (Elem 1 [Elem 2 []]) 2 = true →
     sidebarClickEvent 2 fullPage
     = set_sidebar
         (Some (mkSidebar (ClassList.toggle show [Js.lit "sidebar"; show])
                  (Elem 3 [Elem 4 []; Elem 5 []]))) fullPage
     ∧ sidebarShown (sidebarClickEvent 2 fullPage)
       = negb (sidebarShown fullPage)).
Proof.
  apply (narrow_click_on_sidebar_page fullPage (Elem 1 [Elem 2 []])
           (mkSidebar [Js.lit "sidebar"; show] (Elem 3 [Elem 4 []; Elem 5 []]))
           2); [reflexivity | reflexivity | cbn; lia].
Defined.

Example click_outside_event :
  sidebarShown (sidebarClickEvent 9 fullPage) = false.
Proof. reflexivity. Qed.

Example click_inside_sidebar_event : sidebarClickEvent 5 fullPage = fullPage.
Proof. reflexivity. Qed.

Example click_on_button_event :
  sidebarShown (sidebarClickEvent 2 fullPage) = false
  ∧ sidebarShown (sidebarClickEvent 2 (sidebarClickEvent 2 fullPage)) = true.
Proof. split; reflexivity. Qed.

Lemma document_click_frame (target : nat) (p : Page) :
  dataTheme (documentClick target p) = dataTheme p
  ∧ localStorage (documentClick target p) = localStorage p
  ∧ uploadZone (documentClick target p) = uploadZone p
  ∧ cvFileInput (documentClick target p) = cvFileInput p
  ∧ submitted (documentClick target p) = submitted p
  ∧ alertContainer (documentClick target p) = alertContainer p
  ∧ timers (documentClick target p) = timers p
  ∧ (∀ c, c ≠ show → sidebarHas c (documentClick target p) = sidebarHas c p).
Proof.
  unfold documentClick.
  destruct (sidebarToggle p) as [btn |]; [| by split_and!].
  destruct (sidebar p) as [sb |] eqn:Hs; [| by split_and!].
  match goal with |- context [if ?b then _ else _] => destruct b end;
    [| by split_and!].
  unfold withSidebarClasses. rewrite Hs. split_and!; try reflexivity.
  intros c Hc. unfold sidebarHas. page_cbn. rewrite Hs.
  cbn [sidebarClasses]. by apply has_remove_other.
Qed.

(** What a click through the sidebar's listeners leaves alone. *)
Lemma sidebarClickEvent_frame (target : nat) (p : Page) :
  dataTheme (sidebarClickEvent target p) = dataTheme p
  ∧ localStorage (sidebarClickEvent target p) = localStorage p
  ∧ uploadZone (sidebarClickEvent target p) = uploadZone p
  ∧ cvFileInput (sidebarClickEvent target p) = cvFileInput p
  ∧ submitted (sidebarClickEvent target p) = submitted p
  ∧ alertContainer (sidebarClickEvent target p) = alertContainer p
  ∧ timers (sidebarClickEvent target p) = timers p
  ∧ (∀ c, c ≠ show →
       sidebarHas c (sidebarClickEvent target p) = sidebarHas c p).
Proof.
  unfold sidebarClickEvent.
  destruct (sidebarToggle p) as [btn |] eqn:Hb; [| by split_and!].
  destruct (sidebar p) as [sb |] eqn:Hs; [| by split_and!].
  set (q := if contains btn target then sidebarButtonListener p else p).
  assert (dataTheme q = dataTheme p ∧ localStorage q = localStorage p
          ∧ uploadZone q = uploadZone p ∧ cvFileInput q = cvFileInput p
          ∧ submitted q = submitted p ∧ alertContainer q = alertContainer p
          ∧ timers q = timers p
          ∧ ∀ c, c ≠ show → sidebarHas c q = sidebarHas c p)
    as (H1 & H2 & H3 & H4 & H5 & H6 & H7 & H8).
  { subst q. destruct (contains btn target); [| by split_and!].
    unfold sidebarButtonListener, withSidebarClasses. rewrite Hs.
    split_and!; try reflexivity. intros c Hc. unfold sidebarHas. page_cbn.
    rewrite Hs. cbn [sidebarClasses]. by apply has_toggle_other. }
  destruct (document_click_frame target q) as (G1 & G2 & G3 & G4 & G5 & G6 & G7 & G8).
  rewrite G1, G2, G3, G4, G5, G6, G7. split_and!; try assumption.
  intros c Hc. by rewrite G8, H8.
Qed.

(** X5: a click on the theme toggle, through every listener of the script
    it reaches, writes the key [theme] and no other key of the storage,
    leaves the upload zone, the input, the record of submissions, the
    alerts and the timers as they were, and keeps every class of the
    sidebar other than [show]. *)
Theorem toggle_click_frame (p : Page) (target : nat) (k : list N) :
  k ≠ theme_key →
  localStorage (toggleClickEvent target p) !! k = localStorage p !! k
  ∧ uploadZone (toggleClickEvent target p) = uploadZone p
  ∧ cvFileInput (toggleClickEvent target p) = cvFileInput p
  ∧ submitted (toggleClickEvent target p) = submitted p
  ∧ alertContainer (toggleClickEvent target p) = alertContainer p
  ∧ timers (toggleClickEvent target p) = timers p
  ∧ (∀ c, c ≠ show →
       sidebarHas c (toggleClickEvent target p) = sidebarHas c p).
Proof.
  intros Hk. unfold toggleClickEvent.
  destruct (sidebarClickEvent_frame target (themeClick p))
    as (_ & -> & -> & -> & -> & -> & -> & Hside).
  assert (localStorage (themeClick p) !! k = localStorage p !! k
          ∧ uploadZone (themeClick p) = uploadZone p
          ∧ cvFileInput (themeClick p) = cvFileInput p
          ∧ submitted (themeClick p) = submitted p
          ∧ alertContainer (themeClick p) = alertContainer p
          ∧ timers (themeClick p) = timers p
          ∧ sidebar (themeClick p) = sidebar p)
    as (H1 & H2 & H3 & H4 & H5 & H6 & H7).
  { destruct (themeToggle p) as [icon |] eqn:Ht.
    - rewrite (themeClick_present _ _ Ht). page_cbn.
      split_and!; try reflexivity. by apply lookup_insert_ne.
    - unfold themeClick. rewrite Ht. by split_and!. }
  split_and!; try assumption.
  intros c Hc. rewrite (Hside c Hc). unfold sidebarHas. by rewrite H7.
Qed.

Lemma toggle_click_frame_witness :
  localStorage (toggleClickEvent 9 fullPage) !! Js.lit "token"
  = localStorage fullPage !! Js.lit "token"
  ∧ uploadZone (toggleClickEvent 9 fullPage) = uploadZone fullPage
  ∧ cvFileInput (toggleClickEvent 9 fullPage) = cvFileInput fullPage
  ∧ submitted (toggleClickEvent 9 fullPage) = submitted fullPage
  ∧ alertContainer (toggleClickEvent 9 fullPage) = alertContainer fullPage
  ∧ timers (toggleClickEvent 9 fullPage) = timers fullPage
  ∧ (∀ c, c ≠ show →
       sidebarHas c (toggleClickEvent 9 fullPage) = sidebarHas c fullPage).
Proof. apply (toggle_click_frame fullPage 9 (Js.lit "token")). discriminate. Defined.

(** The click on the toggle closes the sidebar of a narrow page when the
    toggle is outside the sidebar and its button. *)
Example toggle_click_closes_sidebar :
  dataTheme (toggleClickEvent 9 fullPage) = Some dark
  ∧ sidebarShown (toggleClickEvent 9 fullPage) = false.
Proof. split; reflexivity. Qed.
